(** * OAuth tasks of readthedocs: a shallow embedding of
    [readthedocs/oauth/tasks.py] and the properties of its four tasks.

    The four Celery tasks are modelled as computations in a small
    state-and-exception monad over a [World] that holds the database tables
    the tasks read and write, the clock, and a trace of the calls made to the
    provider integrations and to the task queue. *)

From stdpp Require Import gmap strings list fin_maps.
From Stdlib Require Import ZArith Lia.

Open Scope string_scope.
Open Scope Z_scope.
Open Scope list_scope.

(** ** Entities *)

(** [django.contrib.auth.models.User]; [last_login] is a nullable timestamp,
    here in seconds since the epoch, UTC. *)
Record User := {
  user_pk : nat;
  username : string;
  last_login : option Z;
}.

(** [allauth.socialaccount.models.SocialAccount]: one row per linked provider
    account, with a foreign key to its user. *)
Record SocialAccount := {
  socialaccount_pk : nat;
  socialaccount_user_id : nat;
  socialaccount_provider : string;
}.

(** A row of the project table; its primary key is the key it is stored
    under in [projects]. *)
Record Project := {
  project_slug : string;
  has_valid_webhook : bool;
}.

Record Integration := {
  integration_type : string;
}.

Record Organization := {
  organization_pk : nat;
  organization_slug : string;
}.

Record SSOIntegration := {
  sso_provider : string;
  sso_organization : nat;
}.

(** ** Exceptions and outcomes *)

(** The two exception classes the source tells apart: [SyncServiceError]
    (and its subclasses), and every other subclass of [Exception]. *)
Inductive exn :=
  | SyncServiceError (message : string)
  | OtherException (description : string).

Inductive outcome (A : Type) :=
  | Return (a : A)
  | Raise (e : exn).
Arguments Return {A} a.
Arguments Raise {A} e.

(** ** Provider integrations *)

(** An instance of a service class bound to one account of a user.  Its two
    capabilities are opaque to the tasks: [sync()] returns or raises, and
    [setup_webhook(project, integration)] returns a pair whose first
    component is the success flag. *)
Record Service := {
  service_account : nat;
  provider_name : string;
  sync : outcome unit;
  setup_webhook : Project -> option Integration -> bool * string;
}.

Record ServiceCls := {
  for_user : User -> list Service;
  is_project_service : Project -> bool;
  adapter_provider_id : string;
}.

(** ** Notifications *)

Inductive MessageId :=
  | MESSAGE_OAUTH_WEBHOOK_INVALID
  | MESSAGE_OAUTH_WEBHOOK_NO_ACCOUNT
  | MESSAGE_OAUTH_WEBHOOK_NO_PERMISSIONS.

(** A value of [format_values]: a literal string, or the URL that
    [reverse(viewname, args=...)] resolves to, kept symbolic. *)
Inductive FormatValue :=
  | Literal (s : string)
  | Reverse (viewname : string) (args : list string).

Record Notification := {
  message_id : MessageId;
  attached_to : nat;
  dismissable : bool;
  format_values : list (string * FormatValue);
}.

(** ** The world *)

(** A job handed to the queue by [apply_async]. *)
Record Job := {
  job_args : list nat;
  job_countdown : Z;
}.

(** What the tasks do to their collaborators, in order. [EvSyncUser] marks
    an entry into [sync_remote_repositories]. *)
Inductive Event :=
  | EvSyncUser (user_id : nat)
  | EvSync (service : Service)
  | EvSetupWebhook (service : Service) (project : Project)
      (integration : option Integration).

Record World := {
  auth_user : list User;
  socialaccount : list SocialAccount;
  projects : gmap nat Project;
  organizations : list Organization;
  sso_integrations : list SSOIntegration;
  notifications : list Notification;
  jobs : list Job;
  trace : list Event;
  clock : nat -> Z;
  clock_reads : nat;
}.

(** What is fixed for the life of the process. *)
Record Env := {
  (** [readthedocs.oauth.services.registry], in order. *)
  registry : list ServiceCls;
  (** [readthedocs.oauth.utils.SERVICE_MAP]. *)
  SERVICE_MAP : gmap string ServiceCls;
  (** [allauth_registry.by_id(provider_id).name]. *)
  allauth_provider_name : string -> string;
  (** [AdminPermission.members(organization)]. *)
  AdminPermission_members : Organization -> list User;
  (** [SSOIntegration.PROVIDER_ALLAUTH]. *)
  PROVIDER_ALLAUTH : string;
  (** [SyncServiceError.INVALID_OR_REVOKED_ACCESS_TOKEN.format(provider=s)]
      as a function of [s]. *)
  INVALID_OR_REVOKED_ACCESS_TOKEN : string -> string;
  (** The order in which this process iterates over a [set] of strings whose
      elements were added in the order given.  Python leaves it unspecified;
      in CPython it follows the hashes of the strings, which are salted per
      process. *)
  pyset_order : list string -> list string;
}.

(** The one thing known of the iteration order of a set: every element comes
    up once. *)
Definition pyset_order_ok (env : Env) : Prop :=
  ∀ l : list string, pyset_order env l ≡ₚ l.

(** ** The monad of tasks *)

Definition M (A : Type) : Type := World -> outcome A * World.

Definition ret {A} (a : A) : M A := λ w, (Return a, w).

Definition bind {A B} (m : M A) (k : A -> M B) : M B :=
  λ w, match m w with
       | (Return a, w') => k a w'
       | (Raise e, w') => (Raise e, w')
       end.

Definition raise {A} (e : exn) : M A := λ w, (Raise e, w).

Declare Scope task_scope.
Delimit Scope task_scope with task.
Notation "x <- m ;; k" := (bind m (λ x, k))
  (at level 100, m at next level, right associativity) : task_scope.
Notation "m ;;; k" := (bind m (λ _, k))
  (at level 100, right associativity) : task_scope.
Open Scope task_scope.

(** [try: body except SyncServiceError: handler] *)
Definition try_except_SyncServiceError {A} (body handler : M A) : M A :=
  λ w, match body w with
       | (Raise (SyncServiceError _), w') => handler w'
       | r => r
       end.

(** [try: body except Exception: handler] *)
Definition try_except_Exception {A} (body handler : M A) : M A :=
  λ w, match body w with
       | (Raise _, w') => handler w'
       | r => r
       end.

(** [for x in l: s = body(x, s)] with a loop-carried value and no [break]. *)
Fixpoint for_fold {A S} (body : A -> S -> M S) (l : list A) (s : S) : M S :=
  match l with
  | [] => ret s
  | x :: l' => s' <- body x s ;; for_fold body l' s'
  end.

Definition set_trace (t : list Event) (w : World) : World :=
  {| auth_user := auth_user w; socialaccount := socialaccount w;
     projects := projects w; organizations := organizations w;
     sso_integrations := sso_integrations w;
     notifications := notifications w; jobs := jobs w; trace := t;
     clock := clock w; clock_reads := clock_reads w |}.

Definition set_notifications (n : list Notification) (w : World) : World :=
  {| auth_user := auth_user w; socialaccount := socialaccount w;
     projects := projects w; organizations := organizations w;
     sso_integrations := sso_integrations w;
     notifications := n; jobs := jobs w; trace := trace w;
     clock := clock w; clock_reads := clock_reads w |}.

Definition set_projects (p : gmap nat Project) (w : World) : World :=
  {| auth_user := auth_user w; socialaccount := socialaccount w;
     projects := p; organizations := organizations w;
     sso_integrations := sso_integrations w;
     notifications := notifications w; jobs := jobs w; trace := trace w;
     clock := clock w; clock_reads := clock_reads w |}.

Definition set_jobs (j : list Job) (w : World) : World :=
  {| auth_user := auth_user w; socialaccount := socialaccount w;
     projects := projects w; organizations := organizations w;
     sso_integrations := sso_integrations w;
     notifications := notifications w; jobs := j; trace := trace w;
     clock := clock w; clock_reads := clock_reads w |}.

Definition set_clock_reads (n : nat) (w : World) : World :=
  {| auth_user := auth_user w; socialaccount := socialaccount w;
     projects := projects w; organizations := organizations w;
     sso_integrations := sso_integrations w;
     notifications := notifications w; jobs := jobs w; trace := trace w;
     clock := clock w; clock_reads := n |}.

Definition emit (e : Event) : M unit :=
  λ w, (Return tt, set_trace (trace w ++ [e])%list w).

(** [User.objects.filter(pk=user_id).first()] *)
Definition User_filter_pk_first (user_id : nat) : M (option User) :=
  λ w, (Return (find (λ u, bool_decide (user_pk u = user_id)) (auth_user w)), w).

(** ** Python sets of strings *)

(** The content of a set, as the list of its elements in the order they were
    first added. *)
Definition pyset := list string.

Definition pyset_add (x : string) (s : pyset) : pyset :=
  if decide (x ∈ s) then s else (s ++ [x])%list.

(** [sep.join(l)] *)
Fixpoint join (sep : string) (l : list string) : string :=
  match l with
  | [] => ""
  | [x] => x
  | x :: l' => (x ++ sep ++ join sep l')%string
  end.

(** ** [sync_remote_repositories] *)

(** [service.sync()] *)
Definition call_sync (service : Service) : M unit :=
  emit (EvSync service) ;;; (λ w, (sync service, w)).

(** The body of the inner loop, lines 50-53. *)
Definition sync_one (service : Service) (failed_services : pyset) : M pyset :=
  try_except_SyncServiceError
    (call_sync service ;;; ret failed_services)
    (ret (pyset_add (provider_name service) failed_services)).

(** Lines 42-59.  The permission check and the time limits of the decorators
    belong to the task machinery and are not part of the body.  The final
    [match] is [if failed_services:], the truth value of a set being that it
    is not empty. *)
Definition sync_remote_repositories (env : Env) (user_id : nat) : M unit :=
  emit (EvSyncUser user_id) ;;;
  user <- User_filter_pk_first user_id ;;
  match user with
  | None => ret tt
  | Some user =>
      failed_services <-
        for_fold
          (λ service_cls failed_services,
             for_fold sync_one (for_user service_cls user) failed_services)
          (registry env) [] ;;
      match failed_services with
      | [] => ret tt
      | _ :: _ =>
          raise (SyncServiceError
                   (INVALID_OR_REVOKED_ACCESS_TOKEN env
                      (join ", " (pyset_order env failed_services))))
      end
  end.

(** ** [sync_remote_repositories_organizations] *)

(** The queryset [query] of lines 74-89.  [organization_slugs] is [None] when
    the argument is not passed; [None] and the empty list are both falsy. *)
Definition organizations_query (env : Env)
    (organization_slugs : option (list string)) (w : World)
    : list Organization :=
  match organization_slugs with
  | Some ((_ :: _) as slugs) =>
      filter (λ o, organization_slug o ∈ slugs) (organizations w)
  | _ =>
      let organization_ids :=
        sso_organization <$>
          filter (λ i, sso_provider i = PROVIDER_ALLAUTH env)
                 (sso_integrations w) in
      filter (λ o, organization_pk o ∈ organization_ids) (organizations w)
  end.

(** [sync_remote_repositories.apply_async(args=args, countdown=countdown)] *)
Definition apply_async (args : list nat) (countdown : Z) : M unit :=
  λ w, (Return tt,
        set_jobs (jobs w ++ [{| job_args := args;
                                job_countdown := countdown |}])%list w).

(** The body of the inner loop, lines 100-105; [n_task] is carried along. *)
Definition submit_member (user : User) (n_task : Z) : M Z :=
  let n_task := n_task + 1 in
  apply_async [user_pk user] (n_task * 5) ;;;
  ret n_task.

Definition sync_remote_repositories_organizations (env : Env)
    (organization_slugs : option (list string)) : M unit :=
  query <- (λ w, (Return (organizations_query env organization_slugs w), w)) ;;
  for_fold
    (λ organization n_task,
       let members := AdminPermission_members env organization in
       for_fold submit_member members n_task)
    query (-1) ;;;
  ret tt.

(** ** [sync_active_users_remote_repositories] *)

(** [timezone.now()], as seconds since the epoch: each call reads the clock
    once. *)
Definition timezone_now : M Z :=
  λ w, (Return (clock w (clock_reads w)),
        set_clock_reads (S (clock_reads w)) w).

(** [datetime.isoweekday()] and [ExtractIsoWeekDay], both in UTC: Monday is
    1 and Sunday is 7; 1 January 1970 was a Thursday. *)
Definition isoweekday (t : Z) : Z := (t / 86400 + 3) mod 7 + 1.

(** [datetime.timedelta(days=d)] in seconds. *)
Definition timedelta_days (d : Z) : Z := d * 86400.

(** The three conditions of the [filter] of lines 128-132 on one row of the
    join; a null [last_login] satisfies neither comparison. *)
Definition active_user_row (today_weekday three_months_ago : Z)
    (user : User) : bool :=
  match last_login user with
  | Some t =>
      bool_decide (three_months_ago < t)
      && bool_decide (isoweekday t = today_weekday)
  | None => false
  end.

(** The rows of the queryset [users].  A condition on the reverse relation
    [socialaccount] makes Django join [auth_user] with the social account
    table, so a user comes up once per linked account; the queryset has no
    [distinct()]. *)
Definition active_users_query (today_weekday three_months_ago : Z)
    (w : World) : list User :=
  user ← auth_user w;
  _ ← filter (λ a, socialaccount_user_id a = user_pk user) (socialaccount w);
  if active_user_row today_weekday three_months_ago user then [user] else [].

(** The loop body, lines 148-153; the index of [enumerate] only feeds the
    log and is left out with it. *)
Definition resync_user (env : Env) (user : User) (_ : unit) : M unit :=
  try_except_Exception (sync_remote_repositories env (user_pk user)) (ret tt).

Definition sync_active_users_remote_repositories (env : Env) : M unit :=
  now <- timezone_now ;;
  let today_weekday := isoweekday now in
  now <- timezone_now ;;
  let three_months_ago := now - timedelta_days 90 in
  users <- (λ w, (Return
                    (active_users_query today_weekday three_months_ago w),
                  w)) ;;
  for_fold (resync_user env) users tt.

(** ** [attach_webhook] *)

(** [Project.objects.filter(pk=project_pk).first()] *)
Definition Project_filter_pk_first (project_pk : nat) : M (option Project) :=
  λ w, (Return (projects w !! project_pk), w).

(** [Notification.objects.add(...)] *)
Definition Notification_add (n : Notification) : M unit :=
  λ w, (Return tt, set_notifications (notifications w ++ [n])%list w).

(** [project.save()] for the project fetched under [project_pk]. *)
Definition Project_save (project_pk : nat) (project : Project) : M unit :=
  λ w, (Return tt, set_projects (<[project_pk := project]> (projects w)) w).

(** [account.setup_webhook(project, integration=integration)] *)
Definition call_setup_webhook (account : Service) (project : Project)
    (integration : option Integration) : M (bool * string) :=
  emit (EvSetupWebhook account project integration) ;;;
  ret (setup_webhook account project integration).

Definition notification_invalid (project_pk : nat) (project : Project)
    : Notification :=
  {| message_id := MESSAGE_OAUTH_WEBHOOK_INVALID;
     attached_to := project_pk;
     dismissable := true;
     format_values :=
       [("url_integrations",
         Reverse "projects_integrations" [project_slug project])] |}.

Definition notification_no_permissions (project_pk : nat)
    (provider_name : string) : Notification :=
  {| message_id := MESSAGE_OAUTH_WEBHOOK_NO_PERMISSIONS;
     attached_to := project_pk;
     dismissable := true;
     format_values :=
       [("provider_name", Literal provider_name);
        ("url_docs_webhook",
         Literal "https://docs.readthedocs.io/page/webhooks.html")] |}.

Definition notification_no_account (project_pk : nat) (project : Project)
    (provider_name : string) : Notification :=
  {| message_id := MESSAGE_OAUTH_WEBHOOK_NO_ACCOUNT;
     attached_to := project_pk;
     dismissable := true;
     format_values :=
       [("provider_name", Literal provider_name);
        ("url_connect_account",
         Reverse "projects_integrations" [project_slug project])] |}.

(** Lines 172-207: the service class to use, or [None] after the "invalid"
    notification was added (where the source returns [None]). *)
Definition resolve_service (env : Env) (project_pk : nat) (project : Project)
    (integration : option Integration) : M (option ServiceCls) :=
  match integration with
  | Some integration =>
      match SERVICE_MAP env !! integration_type integration with
      | Some service => ret (Some service)
      | None =>
          Notification_add (notification_invalid project_pk project) ;;;
          ret None
      end
  | None =>
      match find (λ service_cls, is_project_service service_cls project)
                 (registry env) with
      | Some service => ret (Some service)
      | None =>
          Notification_add (notification_invalid project_pk project) ;;;
          ret None
      end
  end.

(** The loop of lines 212-220; [true] when it left through [return True]. *)
Fixpoint try_accounts (project_pk : nat) (project : Project)
    (integration : option Integration) (user_accounts : list Service)
    : M bool :=
  match user_accounts with
  | [] => ret false
  | account :: rest =>
      r <- call_setup_webhook account project integration ;;
      if r.1 then
        Project_save project_pk
          {| project_slug := project_slug project;
             has_valid_webhook := true |} ;;;
        ret true
      else try_accounts project_pk project integration rest
  end.

(** The result is Python's [True], [False] or [None]: [Some true],
    [Some false], [None]. *)
Definition attach_webhook (env : Env) (project_pk user_pk : nat)
    (integration : option Integration) : M (option bool) :=
  project <- Project_filter_pk_first project_pk ;;
  user <- User_filter_pk_first user_pk ;;
  match project, user with
  | Some project, Some user =>
      service <- resolve_service env project_pk project integration ;;
      match service with
      | None => ret None
      | Some service =>
          let provider_name :=
            allauth_provider_name env (adapter_provider_id service) in
          let user_accounts := for_user service user in
          returned <- try_accounts project_pk project integration
                        user_accounts ;;
          if returned then ret (Some true)
          else
            match user_accounts with
            | _ :: _ =>
                Notification_add
                  (notification_no_permissions project_pk provider_name)
            | [] =>
                Notification_add
                  (notification_no_account project_pk project provider_name)
            end ;;;
            ret (Some false)
      end
  | _, _ => ret (Some false)
  end.

(** * Specifications *)

(** ** [sync_remote_repositories] *)

(** [service.sync()] raised [SyncServiceError]. *)
Definition sync_failed (service : Service) : bool :=
  match sync service with
  | Raise (SyncServiceError _) => true
  | _ => false
  end.

(** [service.sync()] raised an exception that the [except] clause of line 52
    lets through. *)
Definition sync_escapes (service : Service) : bool :=
  match sync service with
  | Raise (OtherException _) => true
  | _ => false
  end.

(** The accounts of a user, provider by provider in registry order. *)
Definition user_services (env : Env) (user : User) : list Service :=
  registry env ≫= (λ service_cls, for_user service_cls user).

(** The content of [failed_services] after the accounts [l]. *)
Definition add_failed (l : list Service) (s : pyset) : pyset :=
  foldl (λ s service,
           if sync_failed service then pyset_add (provider_name service) s
           else s) s l.

(** The user that [sync_remote_repositories] finds under [user_id]. *)
Definition user_of (w : World) (user_id : nat) : option User :=
  find (λ u, bool_decide (user_pk u = user_id)) (auth_user w).

(** The outcome of a run that attempts every account: a missing user means a
    silent return; otherwise every account of every provider is synced, in
    order, the run returns when none failed, and when some failed it raises
    one [SyncServiceError] whose message joins the names of the providers
    with a failing account, each once. *)
Definition sync_user_outcome (env : Env) (user_id : nat) (w : World) : Prop :=
  let r := sync_remote_repositories env user_id w in
  match user_of w user_id with
  | None => r = (Return tt, set_trace (trace w ++ [EvSyncUser user_id]) w)
  | Some user =>
      let accounts := user_services env user in
      r.2 = set_trace (trace w ++ EvSyncUser user_id :: (EvSync <$> accounts)) w
      ∧ ((∀ x, x ∈ accounts → sync_failed x = false) → r.1 = Return tt)
      ∧ ((∃ x, x ∈ accounts ∧ sync_failed x = true) →
         ∃ names : list string,
           NoDup names
           ∧ (∀ n, n ∈ names
                   ↔ ∃ x, x ∈ accounts ∧ sync_failed x = true
                          ∧ provider_name x = n)
           ∧ r.1 = Raise (SyncServiceError
                            (INVALID_OR_REVOKED_ACCESS_TOKEN env
                               (join ", " names))))
  end.

(** ** Sample data *)

Module Sample.

Definition account (pk : nat) (name : string) (o : outcome unit)
    (hook : bool) : Service :=
  {| service_account := pk; provider_name := name; sync := o;
     setup_webhook := λ _ _, (hook, "") |}.

Definition revoked : outcome unit := Raise (SyncServiceError "revoked").
Definition timeout : outcome unit := Raise (OtherException "timeout").

Definition alice : User :=
  {| user_pk := 1; username := "alice"; last_login := Some 864000 |}.
Definition bob : User :=
  {| user_pk := 2; username := "bob"; last_login := None |}.

(** A provider class that holds the accounts [l] for the user with primary
    key [1] and none for anybody else. *)
Definition provider (id : string) (l : list Service) (claims : bool)
    : ServiceCls :=
  {| for_user := λ u, if bool_decide (user_pk u = 1%nat) then l else [];
     is_project_service := λ _, claims;
     adapter_provider_id := id |}.

Definition env_with (reg : list ServiceCls)
    (order : list string -> list string) : Env :=
  {| registry := reg;
     SERVICE_MAP := ∅;
     allauth_provider_name := λ id, id;
     AdminPermission_members := λ _, [];
     PROVIDER_ALLAUTH := "allauth";
     INVALID_OR_REVOKED_ACCESS_TOKEN := λ s, ("revoked: " ++ s)%string;
     pyset_order := order |}.

Definition world : World :=
  {| auth_user := [alice; bob];
     socialaccount := [];
     projects := ∅;
     organizations := [];
     sso_integrations := [];
     notifications := [];
     jobs := [];
     trace := [];
     clock := λ _, 0;
     clock_reads := 0 |}.

(** GitHub with two revoked accounts, GitLab with a healthy one. *)
Definition registry_two_revoked : list ServiceCls :=
  [provider "github" [account 1 "GitHub" revoked false;
                      account 2 "GitHub" revoked false] false;
   provider "gitlab" [account 3 "GitLab" (Return tt) false] false].

(** GitHub's first account times out, its second is revoked. *)
Definition registry_timeout : list ServiceCls :=
  [provider "github" [account 1 "GitHub" timeout false;
                      account 2 "GitHub" revoked false] false].

(** One revoked account with each of GitHub and GitLab. *)
Definition registry_both_revoked : list ServiceCls :=
  [provider "github" [account 1 "GitHub" revoked false] false;
   provider "gitlab" [account 2 "GitLab" revoked false] false].

End Sample.

(** ** [sync_remote_repositories_organizations] *)

(** The members of the organizations of the queryset, organization by
    organization: one entry per membership. *)
Definition members_in_order (env : Env)
    (organization_slugs : option (list string)) (w : World) : list User :=
  organizations_query env organization_slugs w ≫= AdminPermission_members env.

(** The job submitted for the [n]-th entry. *)
Definition staggered_job (n : nat) (user : User) : Job :=
  {| job_args := [user_pk user]; job_countdown := Z.of_nat n * 5 |}.

Module SampleOrganizations.

Definition org_a : Organization :=
  {| organization_pk := 1; organization_slug := "a" |}.
Definition org_b : Organization :=
  {| organization_pk := 2; organization_slug := "b" |}.

(** Alice and Bob are members of [org_a]; Bob is also a member of
    [org_b]. *)
Definition env : Env :=
  {| registry := [];
     SERVICE_MAP := ∅;
     allauth_provider_name := λ id, id;
     AdminPermission_members :=
       λ o, if bool_decide (organization_pk o = 1%nat)
            then [Sample.alice; Sample.bob] else [Sample.bob];
     PROVIDER_ALLAUTH := "allauth";
     INVALID_OR_REVOKED_ACCESS_TOKEN := λ s, ("revoked: " ++ s)%string;
     pyset_order := λ l, l |}.

Definition world : World :=
  {| auth_user := [Sample.alice; Sample.bob];
     socialaccount := [];
     projects := ∅;
     organizations := [org_a; org_b];
     sso_integrations := [];
     notifications := [];
     jobs := [];
     trace := [];
     clock := λ _, 0;
     clock_reads := 0 |}.

End SampleOrganizations.

(** ** [sync_active_users_remote_repositories] *)

(** The rows of the queryset [users] for the two clock readings of lines
    126 and 127. *)
Definition weekly_users (w : World) : list User :=
  active_users_query
    (isoweekday (clock w (clock_reads w)))
    (clock w (S (clock_reads w)) - timedelta_days 90)
    w.

(** The user ids that [sync_remote_repositories] was entered with, in
    order. *)
Definition sync_user_entries (t : list Event) : list nat :=
  omap (λ e, match e with EvSyncUser user_id => Some user_id | _ => None end)
       t.

Module SampleWeekly.

(** Alice last logged in on Sunday 11 January 1970 and has linked two
    accounts; the task runs on the Sunday after. *)
Definition env : Env := Sample.env_with Sample.registry_two_revoked (λ l, l).

Definition world : World :=
  {| auth_user := [Sample.alice; Sample.bob];
     socialaccount :=
       [{| socialaccount_pk := 1; socialaccount_user_id := 1;
           socialaccount_provider := "github" |};
        {| socialaccount_pk := 2; socialaccount_user_id := 1;
           socialaccount_provider := "gitlab" |}];
     projects := ∅;
     organizations := [];
     sso_integrations := [];
     notifications := [];
     jobs := [];
     trace := [];
     clock := λ _, 1468800;
     clock_reads := 0 |}.

Definition carol : User :=
  {| user_pk := 3; username := "carol"; last_login := Some 864000 |}.

(** Alice and Carol both logged in on that Sunday and have one linked
    account each; the sync of Alice's account times out. *)
Definition env_timeout : Env :=
  Sample.env_with Sample.registry_timeout (λ l, l).

Definition world_two : World :=
  {| auth_user := [Sample.alice; carol];
     socialaccount :=
       [{| socialaccount_pk := 1; socialaccount_user_id := 1;
           socialaccount_provider := "github" |};
        {| socialaccount_pk := 2; socialaccount_user_id := 3;
           socialaccount_provider := "github" |}];
     projects := ∅;
     organizations := [];
     sso_integrations := [];
     notifications := [];
     jobs := [];
     trace := [];
     clock := λ _, 1468800;
     clock_reads := 0 |}.

End SampleWeekly.

(** ** [attach_webhook] *)

(** The service class that lines 172-207 settle on, if any: the entry of
    [SERVICE_MAP] for the type of the integration when one is given, and
    otherwise the first class of the registry that claims the project. *)
Definition resolved_service (env : Env) (project : Project)
    (integration : option Integration) : option ServiceCls :=
  match integration with
  | Some integration => SERVICE_MAP env !! integration_type integration
  | None =>
      find (λ service_cls, is_project_service service_cls project)
           (registry env)
  end.

(** [account.setup_webhook(project, integration)] reports success. *)
Definition webhook_ok (project : Project) (integration : option Integration)
    (account : Service) : bool :=
  (setup_webhook account project integration).1.

(** The project as [attach_webhook] saves it on success. *)
Definition with_valid_webhook (project : Project) : Project :=
  {| project_slug := project_slug project; has_valid_webhook := true |}.

(** The notification of lines 223-245 for the accounts that were tried. *)
Definition notification_no_webhook (env : Env) (project_pk : nat)
    (project : Project) (service : ServiceCls) (user_accounts : list Service)
    : Notification :=
  let provider_name :=
    allauth_provider_name env (adapter_provider_id service) in
  match user_accounts with
  | _ :: _ => notification_no_permissions project_pk provider_name
  | [] => notification_no_account project_pk project provider_name
  end.

Module SampleWebhook.

Definition project : Project :=
  {| project_slug := "docs"; has_valid_webhook := false |}.

Definition world : World :=
  {| auth_user := [Sample.alice; Sample.bob];
     socialaccount := [];
     projects := {[ 7%nat := project ]};
     organizations := [];
     sso_integrations := [];
     notifications := [];
     jobs := [];
     trace := [];
     clock := λ _, 0;
     clock_reads := 0 |}.

Definition denied : Service := Sample.account 1 "GitHub" (Return tt) false.
Definition granted : Service := Sample.account 2 "GitHub" (Return tt) true.
Definition unused : Service := Sample.account 3 "GitHub" (Return tt) true.

(** GitHub claims the project; Alice's first account is refused the
    webhook, her second gets it. *)
Definition github : ServiceCls :=
  Sample.provider "github" [denied; granted; unused] true.

(** GitHub claims the project; Alice's only account is refused. *)
Definition github_denied : ServiceCls :=
  Sample.provider "github" [denied] true.

(** No provider claims the project. *)
Definition bitbucket : ServiceCls := Sample.provider "bitbucket" [] false.

Definition env_with (reg : list ServiceCls) : Env :=
  {| registry := reg;
     SERVICE_MAP := {[ "github_webhook" := github ]};
     allauth_provider_name := λ id, id;
     AdminPermission_members := λ _, [];
     PROVIDER_ALLAUTH := "allauth";
     INVALID_OR_REVOKED_ACCESS_TOKEN := λ s, ("revoked: " ++ s)%string;
     pyset_order := λ l, l |}.

Definition unregistered : Integration :=
  {| integration_type := "bitbucket_webhook" |}.

End SampleWebhook.

(** ** Further notions used in the statements below *)

(** The rows of the social account table that point to a user. *)
Definition linked_accounts (w : World) (user : User) : list SocialAccount :=
  filter (λ a, socialaccount_user_id a = user_pk user) (socialaccount w).

(** The same tables read [k] days later: every clock reading is [k] days
    ahead. *)
Definition days_later (k : Z) (w : World) : World :=
  {| auth_user := auth_user w; socialaccount := socialaccount w;
     projects := projects w; organizations := organizations w;
     sso_integrations := sso_integrations w;
     notifications := notifications w; jobs := jobs w; trace := trace w;
     clock := λ n, clock w n + timedelta_days k;
     clock_reads := clock_reads w |}.

(** The same process with another registry. *)
Definition set_registry (reg : list ServiceCls) (env : Env) : Env :=
  {| registry := reg;
     SERVICE_MAP := SERVICE_MAP env;
     allauth_provider_name := allauth_provider_name env;
     AdminPermission_members := AdminPermission_members env;
     PROVIDER_ALLAUTH := PROVIDER_ALLAUTH env;
     INVALID_OR_REVOKED_ACCESS_TOKEN := INVALID_OR_REVOKED_ACCESS_TOKEN env;
     pyset_order := pyset_order env |}.

(** The trace of a run of [sync_remote_repositories] that goes through all
    the accounts of [user]. *)
Definition full_sync_trace (env : Env) (user : User) : list Event :=
  EvSyncUser (user_pk user) :: (EvSync <$> user_services env user).

(** How many rows of [users] a user accounts for: one per linked account
    when the login conditions hold for the two clock readings of the run,
    none otherwise. *)
Definition attempts_due (w : World) (user : User) : nat :=
  if active_user_row
       (isoweekday (clock w (clock_reads w)))
       (clock w (S (clock_reads w)) - timedelta_days 90)
       user
  then length (linked_accounts w user)
  else 0%nat.

(** * Properties *)

(** ** The world setters *)

Lemma set_trace_id (w : World) : set_trace (trace w) w = w.
Proof. by destruct w. Qed.

Lemma set_trace_app (t1 t2 : list Event) (w : World) :
  set_trace (trace (set_trace (trace w ++ t1) w) ++ t2) (set_trace (trace w ++ t1) w)
  = set_trace (trace w ++ (t1 ++ t2)) w.
Proof. destruct w; unfold set_trace; simpl. by rewrite <- (assoc app). Qed.

(** ** Loops *)

Lemma for_fold_app {A S} (body : A -> S -> M S) (l1 l2 : list A) (s : S)
    (w : World) :
  for_fold body (l1 ++ l2) s w
  = (s' <- for_fold body l1 s ;; for_fold body l2 s') w.
Proof.
  revert s w. induction l1 as [|x l1 IH]; intros s w; [done|].
  simpl. unfold bind. destruct (body x s w) as [[s'|e] w']; [|done].
  rewrite IH. done.
Qed.

(** A loop nested in a loop runs the inner body over the concatenation. *)
Lemma for_fold_nested {A B S} (body : B -> S -> M S) (inner : A -> list B)
    (l : list A) (s : S) (w : World) :
  for_fold (λ x s, for_fold body (inner x) s) l s w
  = for_fold body (l ≫= inner) s w.
Proof.
  revert s w. induction l as [|x l IH]; intros s w; [done|].
  simpl. rewrite for_fold_app. unfold bind.
  destruct (for_fold body (inner x) s w) as [[s'|e] w']; [|done].
  apply IH.
Qed.

(** ** Sets *)

Lemma pyset_add_NoDup (x : string) (s : pyset) :
  NoDup s → NoDup (pyset_add x s).
Proof.
  intros Hs. unfold pyset_add. case_decide as Hx; [done|].
  apply NoDup_app. split_and!; [done| |apply NoDup_singleton].
  intros y Hy ->%list_elem_of_singleton. done.
Qed.

Lemma elem_of_pyset_add (x y : string) (s : pyset) :
  y ∈ pyset_add x s ↔ y = x ∨ y ∈ s.
Proof.
  unfold pyset_add. case_decide as Hx.
  - split; [by right|]. intros [->|]; done.
  - rewrite elem_of_app, list_elem_of_singleton. tauto.
Qed.

(** ** [sync_remote_repositories] *)

Lemma add_failed_NoDup (l : list Service) (s : pyset) :
  NoDup s → NoDup (add_failed l s).
Proof.
  revert s. induction l as [|x l IH]; intros s Hs; [done|].
  simpl. apply IH. destruct (sync_failed x); [by apply pyset_add_NoDup|done].
Qed.

Lemma elem_of_add_failed (n : string) (l : list Service) (s : pyset) :
  n ∈ add_failed l s
  ↔ n ∈ s ∨ ∃ x, x ∈ l ∧ sync_failed x = true ∧ provider_name x = n.
Proof.
  revert s. induction l as [|x l IH]; intros s; simpl.
  - split; [by left|]. intros [?|(x & Hx & _)]; [done|]. by inversion Hx.
  - rewrite IH. destruct (sync_failed x) eqn:Hf.
    + rewrite elem_of_pyset_add. split.
      * intros [[->|?]|(y & Hy & ?)]; [right|by left|right].
        -- exists x. split_and!; [left|done|done].
        -- exists y. split; [by right|done].
      * intros [?|(y & Hy & Hfy & Hn)]; [left; by right|].
        apply elem_of_cons in Hy as [->|Hy]; [left; by left|].
        right. by exists y.
    + split.
      * intros [?|(y & Hy & ?)]; [by left|right].
        exists y. split; [by right|done].
      * intros [?|(y & Hy & Hfy & Hn)]; [by left|].
        apply elem_of_cons in Hy as [->|Hy]; [congruence|].
        right. by exists y.
Qed.

(** When no account lets an exception through, the inner loop body runs for
    every account, in order. *)
Lemma for_fold_sync_one (l : list Service) (s : pyset) (w : World) :
  (∀ x, x ∈ l → sync_escapes x = false) →
  for_fold sync_one l s w
  = (Return (add_failed l s), set_trace (trace w ++ (EvSync <$> l)) w).
Proof.
  revert s w. induction l as [|x l IH]; intros s w Hl.
  - simpl. unfold ret. by rewrite (right_id [] app), set_trace_id.
  - assert (Hx : sync_escapes x = false) by (apply Hl; left).
    assert (Hl' : ∀ y, y ∈ l → sync_escapes y = false)
      by (intros y Hy; apply Hl; by right).
    simpl. unfold bind at 1.
    unfold sync_one at 1, try_except_SyncServiceError, call_sync, bind, emit, ret.
    unfold sync_failed, sync_escapes in *.
    destruct (sync x) as [[]|[m|d]]; [| |done];
      rewrite IH by done; f_equal;
      rewrite (set_trace_app [EvSync x] (EvSync <$> l) w); done.
Qed.

Lemma sync_remote_repositories_unfold (env : Env) (user_id : nat) (w : World) :
  sync_remote_repositories env user_id w
  = let w1 := set_trace (trace w ++ [EvSyncUser user_id]) w in
    match user_of w user_id with
    | None => (Return tt, w1)
    | Some user =>
        match for_fold sync_one (user_services env user) [] w1 with
        | (Return [], w2) => (Return tt, w2)
        | (Return (n :: s), w2) =>
            (Raise (SyncServiceError
                      (INVALID_OR_REVOKED_ACCESS_TOKEN env
                         (join ", " (pyset_order env (n :: s))))), w2)
        | (Raise e, w2) => (Raise e, w2)
        end
    end.
Proof.
  unfold sync_remote_repositories, user_of, bind, emit, User_filter_pk_first.
  simpl. destruct (find _ (auth_user w)) as [user|]; [|done].
  rewrite for_fold_nested. fold (user_services env user).
  destruct (for_fold sync_one _ _ _) as [[[|n s]|e] w2]; done.
Qed.

Lemma add_failed_nil_iff (l : list Service) :
  add_failed l [] = [] ↔ ∀ x, x ∈ l → sync_failed x = false.
Proof.
  split.
  - intros Hnil x Hx. destruct (sync_failed x) eqn:Hf; [|done].
    assert (Hin : provider_name x ∈ add_failed l []).
    { apply elem_of_add_failed. right. by exists x. }
    rewrite Hnil in Hin. by inversion Hin.
  - intros Hl. destruct (add_failed l []) as [|n s] eqn:Hs; [done|].
    assert (Hin : n ∈ add_failed l []) by (rewrite Hs; left).
    apply elem_of_add_failed in Hin as [Hin|(x & Hx & Hf & _)].
    + by inversion Hin.
    + rewrite Hl in Hf by done. done.
Qed.

(** C1 (amended). As long as no account's [sync()] raises an exception other
    than [SyncServiceError], [sync_remote_repositories] returns silently for
    a user that does not exist, and for a user that exists it calls [sync()]
    on every account of every registered provider, in order, and then
    returns when no call raised [SyncServiceError], and otherwise raises one
    [SyncServiceError] whose message joins the names of exactly the
    providers with a failing account, each name once. *)
Theorem sync_remote_repositories_aggregate (env : Env) (user_id : nat)
    (w : World) :
  pyset_order_ok env →
  (∀ user x, user_of w user_id = Some user → x ∈ user_services env user →
             sync_escapes x = false) →
  sync_user_outcome env user_id w.
Proof.
  intros Hord Hesc. unfold sync_user_outcome.
  rewrite sync_remote_repositories_unfold. cbv zeta.
  destruct (user_of w user_id) as [user|] eqn:Hu; [|done].
  rewrite for_fold_sync_one by eauto.
  rewrite (set_trace_app [EvSyncUser user_id]).
  set (accounts := user_services env user).
  destruct (add_failed accounts []) as [|n s] eqn:Hs; simpl.
  - split_and!; [done|done|]. intros (x & Hx & Hf).
    rewrite (proj1 (add_failed_nil_iff accounts) Hs x Hx) in Hf. done.
  - split_and!; [done| |].
    + intros Hall. apply (add_failed_nil_iff accounts) in Hall. congruence.
    + intros _. exists (pyset_order env (n :: s)). split_and!; [| |done].
      * rewrite (Hord (n :: s)), <- Hs. apply add_failed_NoDup, NoDup_nil_2.
      * intros m. rewrite (Hord (n :: s)), <- Hs, elem_of_add_failed.
        split; [intros [Hm|?]; [by inversion Hm|done]|by right].
Qed.

Lemma sync_remote_repositories_aggregate_witness :
  sync_user_outcome
    (Sample.env_with Sample.registry_two_revoked (λ l, l)) 1 Sample.world.
Proof.
  apply sync_remote_repositories_aggregate.
  - intros l. reflexivity.
  - intros user x Hu Hx. vm_compute in Hu. injection Hu as <-.
    unfold user_services in Hx. simpl in Hx.
    repeat (apply elem_of_cons in Hx as [->|Hx]; [reflexivity|]).
    by apply elem_of_nil in Hx.
Defined.

(** C1 as stated fails: an account whose [sync()] raises another exception
    ends the run at once, and the accounts after it are never attempted. *)
Lemma sync_remote_repositories_early_exit :
  ¬ (∀ env user_id w, pyset_order_ok env → sync_user_outcome env user_id w).
Proof.
  intros H.
  specialize (H (Sample.env_with Sample.registry_timeout (λ l, l)) 1%nat
                Sample.world (λ l, reflexivity _)).
  unfold sync_user_outcome in H.
  change (user_of Sample.world 1) with (Some Sample.alice) in H.
  destruct H as [Htrace _]. apply (f_equal trace) in Htrace.
  vm_compute in Htrace. discriminate Htrace.
Qed.

(** What the early exit looks like: the run ends with the exception of the
    first account, and the second account was not synced. *)
Example sync_remote_repositories_timeout :
  let r := sync_remote_repositories
             (Sample.env_with Sample.registry_timeout (λ l, l)) 1
             Sample.world in
  r.1 = Raise (OtherException "timeout")
  ∧ trace r.2 = [EvSyncUser 1;
                 EvSync (Sample.account 1 "GitHub" Sample.timeout false)].
Proof. split; reflexivity. Qed.

(** C9 (amended). Two runs of [sync_remote_repositories] over the same
    registry, accounts and outcomes make the same calls and end the same way,
    except that the provider names in the message of the aggregate error may
    come in a different order: the two lists of names are permutations of
    each other, and the messages are identical when both runs iterate over
    a set in the same order. *)
Theorem sync_remote_repositories_names_stable (env1 env2 : Env)
    (user_id : nat) (w : World) :
  pyset_order_ok env1 → pyset_order_ok env2 →
  registry env1 = registry env2 →
  (∀ s, INVALID_OR_REVOKED_ACCESS_TOKEN env1 s
        = INVALID_OR_REVOKED_ACCESS_TOKEN env2 s) →
  let r1 := sync_remote_repositories env1 user_id w in
  let r2 := sync_remote_repositories env2 user_id w in
  r1.2 = r2.2
  ∧ (r1.1 = r2.1
     ∨ ∃ names1 names2,
         names1 ≡ₚ names2
         ∧ r1.1 = Raise (SyncServiceError
                           (INVALID_OR_REVOKED_ACCESS_TOKEN env1
                              (join ", " names1)))
         ∧ r2.1 = Raise (SyncServiceError
                           (INVALID_OR_REVOKED_ACCESS_TOKEN env1
                              (join ", " names2))))
  ∧ ((∀ l, pyset_order env1 l = pyset_order env2 l) → r1.1 = r2.1).
Proof.
  intros Hord1 Hord2 Hreg Hmsg. cbv zeta.
  rewrite !sync_remote_repositories_unfold. cbv zeta.
  destruct (user_of w user_id) as [user|]; [|by auto].
  assert (user_services env1 user = user_services env2 user) as ->
    by (unfold user_services; by rewrite Hreg).
  destruct (for_fold sync_one _ _ _) as [[[|n s]|e] w2]; simpl;
    [by auto| |by auto].
  split_and!; [done| |].
  - right. exists (pyset_order env1 (n :: s)), (pyset_order env2 (n :: s)).
    split_and!; [|done|by rewrite Hmsg].
    by rewrite (Hord1 (n :: s)), (Hord2 (n :: s)).
  - intros Hsame. by rewrite Hmsg, Hsame.
Qed.

Lemma sync_remote_repositories_names_stable_witness :
  let env1 := Sample.env_with Sample.registry_both_revoked (λ l, l) in
  let env2 := Sample.env_with Sample.registry_both_revoked reverse in
  let r1 := sync_remote_repositories env1 1 Sample.world in
  let r2 := sync_remote_repositories env2 1 Sample.world in
  r1.2 = r2.2
  ∧ (r1.1 = r2.1
     ∨ ∃ names1 names2,
         names1 ≡ₚ names2
         ∧ r1.1 = Raise (SyncServiceError
                           (INVALID_OR_REVOKED_ACCESS_TOKEN env1
                              (join ", " names1)))
         ∧ r2.1 = Raise (SyncServiceError
                           (INVALID_OR_REVOKED_ACCESS_TOKEN env1
                              (join ", " names2))))
  ∧ ((∀ l, pyset_order env1 l = pyset_order env2 l) → r1.1 = r2.1).
Proof.
  apply sync_remote_repositories_names_stable.
  - intros l. reflexivity.
  - intros l. apply reverse_Permutation.
  - reflexivity.
  - reflexivity.
Defined.

(** C9 as stated fails: the failed names are kept in a [set], and two
    processes need not iterate over it in the same order. *)
Lemma sync_remote_repositories_message_order_differs :
  ¬ (∀ env1 env2 user_id w,
       pyset_order_ok env1 → pyset_order_ok env2 →
       registry env1 = registry env2 →
       (∀ s, INVALID_OR_REVOKED_ACCESS_TOKEN env1 s
             = INVALID_OR_REVOKED_ACCESS_TOKEN env2 s) →
       (sync_remote_repositories env1 user_id w).1
       = (sync_remote_repositories env2 user_id w).1).
Proof.
  intros H.
  specialize (H (Sample.env_with Sample.registry_both_revoked (λ l, l))
                (Sample.env_with Sample.registry_both_revoked reverse)
                1%nat Sample.world
                (λ l, reflexivity _) (λ l, reverse_Permutation l)
                eq_refl (λ s, eq_refl)).
  vm_compute in H. discriminate H.
Qed.

(** The two messages of that example. *)
Example sync_remote_repositories_two_orders :
  (sync_remote_repositories
     (Sample.env_with Sample.registry_both_revoked (λ l, l)) 1
     Sample.world).1
  = Raise (SyncServiceError "revoked: GitHub, GitLab")
  ∧ (sync_remote_repositories
       (Sample.env_with Sample.registry_both_revoked reverse) 1
       Sample.world).1
    = Raise (SyncServiceError "revoked: GitLab, GitHub").
Proof. split; reflexivity. Qed.

(** ** [sync_remote_repositories_organizations] *)

Lemma set_jobs_id (w : World) : set_jobs (jobs w) w = w.
Proof. by destruct w. Qed.

Lemma set_jobs_app (j1 j2 : list Job) (w : World) :
  set_jobs (jobs (set_jobs (jobs w ++ j1) w) ++ j2) (set_jobs (jobs w ++ j1) w)
  = set_jobs (jobs w ++ (j1 ++ j2)) w.
Proof. destruct w; unfold set_jobs; simpl. by rewrite <- (assoc app). Qed.

(** The inner loop entered with [n_task = k - 1], that is after [k] jobs. *)
Lemma for_fold_submit_member (l : list User) (k : nat) (w : World) :
  for_fold submit_member l (Z.of_nat k - 1) w
  = (Return (Z.of_nat (k + length l) - 1),
     set_jobs (jobs w ++ imap (λ i, staggered_job (k + i)) l) w).
Proof.
  revert k w. induction l as [|user l IH]; intros k w.
  - simpl. unfold ret. rewrite (right_id [] app), set_jobs_id.
    by rewrite Nat.add_0_r.
  - simpl for_fold. unfold bind at 1.
    unfold submit_member at 1, apply_async, bind, ret.
    replace (Z.of_nat k - 1 + 1) with (Z.of_nat (S k) - 1) by lia.
    rewrite IH. f_equal; [f_equal; simpl; lia|].
    replace (Z.of_nat (S k) - 1) with (Z.of_nat k) by lia.
    rewrite (set_jobs_app [_]). f_equal. f_equal. simpl. f_equal.
    + unfold staggered_job. by rewrite Nat.add_0_r.
    + apply imap_ext. intros i user' _. simpl. f_equal. lia.
Qed.

(** What a call does: it returns, and appends one job per membership. *)
Lemma sync_remote_repositories_organizations_run (env : Env)
    (organization_slugs : option (list string)) (w : World) :
  sync_remote_repositories_organizations env organization_slugs w
  = (Return tt,
     set_jobs
       (jobs w ++ imap staggered_job
                       (members_in_order env organization_slugs w)) w).
Proof.
  unfold sync_remote_repositories_organizations, members_in_order.
  unfold bind at 1 2. rewrite for_fold_nested.
  change (-1) with (Z.of_nat 0 - 1). rewrite for_fold_submit_member.
  unfold ret. done.
Qed.

(** C5. In every call of [sync_remote_repositories_organizations], the jobs
    submitted are, in order, one per membership of the resolved
    organizations, and the [n]-th of them (from 0, counted across all the
    organizations) carries the countdown [n * 5]. *)
Theorem sync_remote_repositories_organizations_stagger (env : Env)
    (organization_slugs : option (list string)) (w : World) :
  let r := sync_remote_repositories_organizations env organization_slugs w in
  r = (Return tt,
       set_jobs
         (jobs w ++ imap staggered_job
                         (members_in_order env organization_slugs w)) w)
  ∧ ∀ (n : nat) (job : Job),
      jobs r.2 !! (length (jobs w) + n)%nat = Some job →
      job_countdown job = 5 * Z.of_nat n.
Proof.
  cbv zeta. rewrite sync_remote_repositories_organizations_run.
  split; [done|].
  intros n job. simpl. rewrite lookup_app_r by lia.
  replace (length (jobs w) + n - length (jobs w))%nat with n by lia.
  rewrite list_lookup_imap.
  destruct (_ !! n) as [user|]; simpl; [|done].
  intros [= <-]. simpl. lia.
Qed.

(** C6. A call submits one job per membership, not one per user: the
    arguments of the jobs it adds are the primary keys of the members of the
    resolved organizations, organization by organization, with no
    deduplication across organizations.  For Bob, a member of both of two
    resolved organizations, it submits two jobs. *)
Theorem sync_remote_repositories_organizations_member_of_two :
  (∀ env organization_slugs w,
     job_args
       <$> jobs (sync_remote_repositories_organizations env
                   organization_slugs w).2
     = (job_args <$> jobs w)
       ++ ((λ user, [user_pk user])
             <$> members_in_order env organization_slugs w))
  ∧ jobs (sync_remote_repositories_organizations SampleOrganizations.env
            (Some ["a"; "b"]) SampleOrganizations.world).2
    = [{| job_args := [1%nat]; job_countdown := 0 |};
       {| job_args := [2%nat]; job_countdown := 5 |};
       {| job_args := [2%nat]; job_countdown := 10 |}].
Proof.
  split; [|reflexivity].
  intros env organization_slugs w.
  rewrite sync_remote_repositories_organizations_run. simpl.
  rewrite fmap_app. f_equal. rewrite fmap_imap. apply imap_const.
Qed.

(** ** [sync_active_users_remote_repositories] *)

Lemma sync_user_entries_app (t1 t2 : list Event) :
  sync_user_entries (t1 ++ t2) = (sync_user_entries t1 ++ sync_user_entries t2)%list.
Proof. apply omap_app. Qed.

Lemma sync_user_entries_sync (l : list Service) :
  sync_user_entries (EvSync <$> l) = [].
Proof. induction l as [|x l IH]; [done|]. simpl. apply IH. Qed.

(** Whatever the accounts do, the inner loop only adds [sync()] calls to the
    trace. *)
Lemma for_fold_sync_one_trace (l : list Service) (s : pyset) (w : World) :
  ∃ r l', for_fold sync_one l s w
          = (r, set_trace (trace w ++ (EvSync <$> l')) w).
Proof.
  revert s w. induction l as [|x l IH]; intros s w.
  - exists (Return s), []. simpl. unfold ret.
    by rewrite (right_id [] app), set_trace_id.
  - simpl. unfold bind at 1.
    unfold sync_one at 1, try_except_SyncServiceError, call_sync, bind, emit, ret.
    destruct (sync x) as [[]|[m|d]].
    + destruct (IH s (set_trace (trace w ++ [EvSync x]) w)) as (r & l' & ->).
      exists r, (x :: l'). by rewrite (set_trace_app [EvSync x]).
    + destruct (IH (pyset_add (provider_name x) s)
                   (set_trace (trace w ++ [EvSync x]) w)) as (r & l' & ->).
      exists r, (x :: l'). by rewrite (set_trace_app [EvSync x]).
    + exists (Raise (OtherException d)), [x]. done.
Qed.

Lemma sync_remote_repositories_trace (env : Env) (user_id : nat) (w : World) :
  ∃ r l', sync_remote_repositories env user_id w
          = (r, set_trace (trace w ++ EvSyncUser user_id :: (EvSync <$> l')) w).
Proof.
  rewrite sync_remote_repositories_unfold. cbv zeta.
  destruct (user_of w user_id) as [user|].
  - destruct (for_fold_sync_one_trace (user_services env user) []
                (set_trace (trace w ++ [EvSyncUser user_id]) w))
      as (r & l' & ->).
    rewrite (set_trace_app [EvSyncUser user_id]).
    destruct r as [[|n s]|e]; eauto.
  - exists (Return tt), []. done.
Qed.

(** The loop body never raises and enters [sync_remote_repositories] once. *)
Lemma resync_user_trace (env : Env) (user : User) (w : World) :
  ∃ t, resync_user env user tt w = (Return tt, set_trace (trace w ++ t) w)
       ∧ sync_user_entries t = [user_pk user].
Proof.
  unfold resync_user, try_except_Exception.
  destruct (sync_remote_repositories_trace env (user_pk user) w)
    as (r & l' & ->).
  exists (EvSyncUser (user_pk user) :: (EvSync <$> l')). split.
  - destruct r as [[]|e]; done.
  - change (sync_user_entries (EvSyncUser (user_pk user) :: (EvSync <$> l')))
      with (user_pk user :: sync_user_entries (EvSync <$> l')).
    by rewrite sync_user_entries_sync.
Qed.

Lemma for_fold_resync_user (env : Env) (users : list User) (w : World) :
  ∃ t, for_fold (resync_user env) users tt w
       = (Return tt, set_trace (trace w ++ t) w)
       ∧ sync_user_entries t = user_pk <$> users.
Proof.
  revert w. induction users as [|user users IH]; intros w.
  - exists []. simpl. unfold ret.
    by rewrite (right_id [] app), set_trace_id.
  - simpl. unfold bind at 1.
    destruct (resync_user_trace env user w) as (t1 & -> & Ht1).
    destruct (IH (set_trace (trace w ++ t1) w)) as (t2 & -> & Ht2).
    exists (t1 ++ t2)%list. split.
    + by rewrite set_trace_app.
    + by rewrite sync_user_entries_app, Ht1, Ht2.
Qed.

Lemma sync_active_users_remote_repositories_unfold (env : Env) (w : World) :
  sync_active_users_remote_repositories env w
  = for_fold (resync_user env) (weekly_users w) tt
      (set_clock_reads (S (S (clock_reads w))) w).
Proof.
  unfold sync_active_users_remote_repositories, bind, timezone_now.
  simpl. by destruct w.
Qed.

Lemma isoweekday_range (t : Z) : (1 ≤ isoweekday t ≤ 7)%Z.
Proof. unfold isoweekday. pose proof (Z.mod_pos_bound (t / 86400 + 3) 7). lia. Qed.

Lemma elem_of_active_users_query (today_weekday three_months_ago : Z)
    (w : World) (user : User) :
  user ∈ active_users_query today_weekday three_months_ago w
  ↔ user ∈ auth_user w
    ∧ (∃ t, last_login user = Some t ∧ three_months_ago < t
            ∧ isoweekday t = today_weekday)
    ∧ (∃ a, a ∈ socialaccount w ∧ socialaccount_user_id a = user_pk user).
Proof.
  unfold active_users_query. rewrite list_elem_of_bind. split.
  - intros (u & Hin & Hu). apply list_elem_of_bind in Hin as (a & Hin & Ha).
    apply list_elem_of_filter in Ha as [Hfk Ha].
    unfold active_user_row in Hin.
    destruct (last_login u) as [t|] eqn:Ht; [|by apply elem_of_nil in Hin].
    destruct (bool_decide (three_months_ago < t)) eqn:H1;
      [|by apply elem_of_nil in Hin].
    destruct (bool_decide (isoweekday t = today_weekday)) eqn:H2;
      [|by apply elem_of_nil in Hin].
    apply list_elem_of_singleton in Hin as ->.
    apply bool_decide_eq_true in H1, H2. split_and!; [done| |by exists a].
    exists t. done.
  - intros (Hu & (t & Ht & H1 & H2) & (a & Ha & Hfk)).
    exists user. split; [|done]. apply list_elem_of_bind. exists a. split.
    + unfold active_user_row. rewrite Ht.
      rewrite !bool_decide_eq_true_2 by done. simpl. left.
    + apply list_elem_of_filter. done.
Qed.

(** C7. [sync_active_users_remote_repositories] runs its loop over the rows
    of [users], and a user is among them exactly when it has a [last_login]
    later than 90 days before now, on the same ISO weekday as today, and has
    at least one linked account.  ISO weekdays run from 1 to 7 and Monday
    (such as 1 January 2024) is 1.  So a user whose last login was on a
    Wednesday is selected only on a Wednesday, and a user whose last login is
    90 days old or older, 120 days for instance, is never selected. *)
Theorem sync_active_users_remote_repositories_selection (env : Env)
    (w : World) (user : User) :
  let today := clock w (clock_reads w) in
  let now := clock w (S (clock_reads w)) in
  sync_active_users_remote_repositories env w
  = for_fold (resync_user env) (weekly_users w) tt
      (set_clock_reads (S (S (clock_reads w))) w)
  ∧ (user ∈ weekly_users w
     ↔ user ∈ auth_user w
       ∧ (∃ t, last_login user = Some t ∧ now - timedelta_days 90 < t
               ∧ isoweekday t = isoweekday today)
       ∧ (∃ a, a ∈ socialaccount w
               ∧ socialaccount_user_id a = user_pk user))
  ∧ (∀ t, (1 ≤ isoweekday t ≤ 7)%Z)
  ∧ isoweekday 1704067200 = 1
  ∧ (∀ t, user ∈ weekly_users w → last_login user = Some t →
          isoweekday t = 3 → isoweekday today = 3)
  ∧ (∀ t, last_login user = Some t → (t ≤ now - timedelta_days 90)%Z →
          user ∉ weekly_users w)
  ∧ (last_login user = Some (now - timedelta_days 120) →
     user ∉ weekly_users w).
Proof.
  cbv zeta.
  pose proof (elem_of_active_users_query
                (isoweekday (clock w (clock_reads w)))
                (clock w (S (clock_reads w)) - timedelta_days 90) w user)
    as Hsel.
  fold (weekly_users w) in Hsel.
  split_and!.
  - apply sync_active_users_remote_repositories_unfold.
  - exact Hsel.
  - apply isoweekday_range.
  - reflexivity.
  - intros t Hin Ht Hwed. apply Hsel in Hin as (_ & (t' & Ht' & _ & Hday) & _).
    congruence.
  - intros t Ht Hold Hin. apply Hsel in Hin as (_ & (t' & Ht' & Hnew & _) & _).
    assert (t' = t) by congruence. lia.
  - intros Ht Hin. apply Hsel in Hin as (_ & (t' & Ht' & Hnew & _) & _).
    assert (t' = clock w (S (clock_reads w)) - timedelta_days 120)
      by congruence.
    unfold timedelta_days in *. lia.
Qed.

(** C8. [sync_active_users_remote_repositories] always returns: whatever
    the per-user syncs raise, [sync_remote_repositories] is entered once for
    every row of [users], in order, and nothing else is written but the
    trace of these calls. *)
Theorem sync_active_users_remote_repositories_isolation (env : Env)
    (w : World) :
  ∃ t, sync_active_users_remote_repositories env w
       = (Return tt,
          set_trace (trace w ++ t)
            (set_clock_reads (S (S (clock_reads w))) w))
       ∧ sync_user_entries t = user_pk <$> weekly_users w.
Proof.
  rewrite sync_active_users_remote_repositories_unfold.
  destruct (for_fold_resync_user env (weekly_users w)
              (set_clock_reads (S (S (clock_reads w))) w))
    as (t & Hrun & Ht).
  exists t. done.
Qed.

(** A failure in the middle of the batch: the sync of Alice ends with an
    exception that is not a [SyncServiceError], and Carol is still
    attempted. *)
Example sync_active_users_remote_repositories_mid_batch :
  let r := sync_active_users_remote_repositories SampleWeekly.env_timeout
             SampleWeekly.world_two in
  (sync_remote_repositories SampleWeekly.env_timeout 1
     SampleWeekly.world_two).1
  = Raise (OtherException "timeout")
  ∧ r.1 = Return tt
  ∧ sync_user_entries (trace r.2) = [1%nat; 3%nat].
Proof. split_and!; reflexivity. Qed.

(** C10. A user with two linked accounts comes up twice in [users] and is
    synced twice in one run: Alice, whose two GitHub accounts are revoked,
    has [sync_remote_repositories] entered twice, each time attempting her
    three accounts; the run itself returns. *)
Theorem sync_active_users_remote_repositories_twice :
  let r := sync_active_users_remote_repositories SampleWeekly.env
             SampleWeekly.world in
  r.1 = Return tt
  ∧ weekly_users SampleWeekly.world = [Sample.alice; Sample.alice]
  ∧ sync_user_entries (trace r.2) = [1%nat; 1%nat]
  ∧ length (trace r.2) = 8%nat.
Proof. split_and!; reflexivity. Qed.

(** ** [attach_webhook] *)

Lemma resolve_service_spec (env : Env) (project_pk : nat) (project : Project)
    (integration : option Integration) (w : World) :
  resolve_service env project_pk project integration w
  = match resolved_service env project integration with
    | Some service => (Return (Some service), w)
    | None =>
        (Return None,
         set_notifications
           (notifications w ++ [notification_invalid project_pk project]) w)
    end.
Proof.
  unfold resolve_service, resolved_service.
  destruct integration as [integration|].
  - destruct (SERVICE_MAP env !! _); done.
  - destruct (find _ _); done.
Qed.

(** When every account is refused, the loop tries them all and falls
    through. *)
Lemma try_accounts_all_refused (project_pk : nat) (project : Project)
    (integration : option Integration) (l : list Service) (w : World) :
  (∀ a, a ∈ l → webhook_ok project integration a = false) →
  try_accounts project_pk project integration l w
  = (Return false,
     set_trace
       (trace w ++ ((λ a, EvSetupWebhook a project integration) <$> l)) w).
Proof.
  revert w. induction l as [|a l IH]; intros w Hl.
  - simpl. unfold ret. by rewrite (right_id [] app), set_trace_id.
  - simpl. unfold bind at 1. unfold call_setup_webhook, bind, emit, ret.
    assert (Ha : webhook_ok project integration a = false) by (apply Hl; left).
    unfold webhook_ok in Ha. rewrite Ha.
    rewrite IH by (intros b Hb; apply Hl; by right).
    by rewrite (set_trace_app [_]).
Qed.

(** The loop stops at the first account that gets the webhook, saves the
    project and leaves through [return True]. *)
Lemma try_accounts_first_granted (project_pk : nat) (project : Project)
    (integration : option Integration) (before after : list Service)
    (account : Service) (w : World) :
  (∀ a, a ∈ before → webhook_ok project integration a = false) →
  webhook_ok project integration account = true →
  try_accounts project_pk project integration (before ++ account :: after) w
  = (Return true,
     set_projects (<[project_pk := with_valid_webhook project]> (projects w))
       (set_trace
          (trace w ++ ((λ a, EvSetupWebhook a project integration)
                         <$> (before ++ [account]))) w)).
Proof.
  revert w. induction before as [|a l IH]; intros w Hl Hok.
  - simpl. unfold bind at 1. unfold call_setup_webhook, bind, emit, ret.
    unfold webhook_ok in Hok. rewrite Hok. done.
  - simpl. unfold bind at 1. unfold call_setup_webhook, bind, emit, ret.
    assert (Ha : webhook_ok project integration a = false) by (apply Hl; left).
    unfold webhook_ok in Ha. rewrite Ha.
    rewrite IH by (try done; intros b Hb; apply Hl; by right).
    by rewrite (set_trace_app [_]).
Qed.

(** A list of accounts either has a first one that gets the webhook, or has
    none. *)
Lemma first_granted_or_all_refused (project : Project)
    (integration : option Integration) (l : list Service) :
  (∀ a, a ∈ l → webhook_ok project integration a = false)
  ∨ ∃ before account after,
      l = (before ++ account :: after)%list
      ∧ (∀ a, a ∈ before → webhook_ok project integration a = false)
      ∧ webhook_ok project integration account = true.
Proof.
  induction l as [|a l IH].
  - left. intros a Ha. by apply elem_of_nil in Ha.
  - destruct (webhook_ok project integration a) eqn:Ha.
    + right. exists [], a, l. split_and!; [done| |done].
      intros b Hb. by apply elem_of_nil in Hb.
    + destruct IH as [Hall|(before & account & after & -> & Hb & Hok)].
      * left. intros b [->|Hb]%elem_of_cons; [done|by apply Hall].
      * right. exists (a :: before), account, after. split_and!; [done| |done].
        intros b [->|Hin]%elem_of_cons; [done|by apply Hb].
Qed.

Lemma attach_webhook_unfold (env : Env) (project_pk user_pk : nat)
    (integration : option Integration) (w : World) :
  attach_webhook env project_pk user_pk integration w
  = match projects w !! project_pk, user_of w user_pk with
    | Some project, Some user =>
        match resolved_service env project integration with
        | None =>
            (Return None,
             set_notifications
               (notifications w ++ [notification_invalid project_pk project])
               w)
        | Some service =>
            let user_accounts := for_user service user in
            match try_accounts project_pk project integration
                    user_accounts w with
            | (Return true, w') => (Return (Some true), w')
            | (Return false, w') =>
                (Return (Some false),
                 set_notifications
                   (notifications w'
                    ++ [notification_no_webhook env project_pk project
                          service user_accounts]) w')
            | (Raise e, w') => (Raise e, w')
            end
        end
    | _, _ => (Return (Some false), w)
    end.
Proof.
  unfold attach_webhook, user_of.
  unfold bind at 1. unfold Project_filter_pk_first at 1.
  unfold bind at 1. unfold User_filter_pk_first at 1.
  destruct (projects w !! project_pk) as [project|]; [|done].
  destruct (find _ (auth_user w)) as [user|]; [|done].
  unfold bind at 1. rewrite resolve_service_spec.
  destruct (resolved_service env project integration) as [service|]; [|done].
  cbv zeta. unfold bind at 1.
  destruct (try_accounts _ _ _ _ _) as [[[|]|e] w']; [done| |done].
  unfold notification_no_webhook.
  destruct (for_user service user); done.
Qed.

Lemma find_all_false {A} (f : A -> bool) (l : list A) :
  (∀ x, x ∈ l → f x = false) → find f l = None.
Proof.
  induction l as [|x l IH]; intros Hl; [done|]. simpl.
  rewrite (Hl x) by left. apply IH. intros y Hy. apply Hl. by right.
Qed.

(** [attach_webhook] writes no project row but the one of a project that
    just got its webhook. *)
Lemma attach_webhook_flag (env : Env) (project_pk user_pk : nat)
    (integration : option Integration) (w : World) :
  let r := attach_webhook env project_pk user_pk integration w in
  ∃ t, trace r.2 = trace w ++ t
       ∧ ∀ pk p, projects r.2 !! pk = Some p →
           projects w !! pk = Some p
           ∨ (pk = project_pk ∧ has_valid_webhook p = true
              ∧ ∃ account project,
                  EvSetupWebhook account project integration ∈ t
                  ∧ webhook_ok project integration account = true).
Proof.
  cbv zeta. rewrite attach_webhook_unfold.
  destruct (projects w !! project_pk) as [project|] eqn:Hp;
    [|exists []; rewrite (right_id [] app); auto].
  destruct (user_of w user_pk) as [user|];
    [|exists []; rewrite (right_id [] app); auto].
  destruct (resolved_service env project integration) as [service|];
    [|exists []; rewrite (right_id [] app); auto].
  cbv zeta.
  destruct (first_granted_or_all_refused project integration
              (for_user service user))
    as [Hall|(before & account & after & -> & Hbefore & Hok)].
  - rewrite try_accounts_all_refused by done. eexists. split; [done|].
    simpl. auto.
  - rewrite try_accounts_first_granted by done. eexists. split; [done|].
    simpl. intros pk p. rewrite lookup_insert. case_decide as Hpk.
    + intros [= <-]. right. split_and!; [done|done|].
      exists account, project. split; [|done].
      rewrite fmap_app. apply elem_of_app. right. left.
    + auto.
Qed.

(** C2. When [attach_webhook] has resolved a service and one of the user's
    accounts for it gets the webhook, the accounts are tried in order up to
    the first such account and no further, the project is saved with
    [has_valid_webhook] set, the result is [True] and no notification is
    added.  And in every call, a project row of the final table is either the
    row it was, or the row of [project_pk] with [has_valid_webhook] set after
    a [setup_webhook] call of this run reported success. *)
Theorem attach_webhook_first_success (env : Env) (project_pk user_pk : nat)
    (integration : option Integration) (w : World) :
  let r := attach_webhook env project_pk user_pk integration w in
  (∀ project user service before account after,
     projects w !! project_pk = Some project →
     user_of w user_pk = Some user →
     resolved_service env project integration = Some service →
     for_user service user = before ++ account :: after →
     (∀ a, a ∈ before → webhook_ok project integration a = false) →
     webhook_ok project integration account = true →
     r.1 = Return (Some true)
     ∧ trace r.2
       = trace w ++ ((λ a, EvSetupWebhook a project integration)
                       <$> (before ++ [account]))
     ∧ projects r.2
       = <[project_pk := with_valid_webhook project]> (projects w)
     ∧ notifications r.2 = notifications w)
  ∧ ∃ t, trace r.2 = trace w ++ t
         ∧ ∀ pk p, projects r.2 !! pk = Some p →
             projects w !! pk = Some p
             ∨ (pk = project_pk ∧ has_valid_webhook p = true
                ∧ ∃ account project,
                    EvSetupWebhook account project integration ∈ t
                    ∧ webhook_ok project integration account = true).
Proof.
  cbv zeta. split; [|apply attach_webhook_flag].
  intros project user service before account after Hp Hu Hs Hl Hbefore Hok.
  rewrite attach_webhook_unfold, Hp, Hu, Hs. cbv zeta.
  rewrite Hl, try_accounts_first_granted by done. done.
Qed.

Lemma attach_webhook_first_success_witness :
  let r := attach_webhook (SampleWebhook.env_with [SampleWebhook.github]) 7 1
             None SampleWebhook.world in
  r.1 = Return (Some true)
  ∧ trace r.2
    = [EvSetupWebhook SampleWebhook.denied SampleWebhook.project None;
       EvSetupWebhook SampleWebhook.granted SampleWebhook.project None]
  ∧ projects r.2
    = <[7%nat := with_valid_webhook SampleWebhook.project]>
        (projects SampleWebhook.world)
  ∧ notifications r.2 = [].
Proof.
  apply (proj1 (attach_webhook_first_success
                  (SampleWebhook.env_with [SampleWebhook.github]) 7 1 None
                  SampleWebhook.world)
           SampleWebhook.project Sample.alice SampleWebhook.github
           [SampleWebhook.denied] SampleWebhook.granted
           [SampleWebhook.unused]).
  - reflexivity.
  - reflexivity.
  - reflexivity.
  - reflexivity.
  - intros a Ha. apply list_elem_of_singleton in Ha. by subst a.
  - reflexivity.
Defined.

(** C3. When [attach_webhook] has resolved a service and none of the user's
    accounts for it gets the webhook, every account is tried, the result is
    [False], the project table is left as it was, and exactly one
    notification is added: [MESSAGE_OAUTH_WEBHOOK_NO_PERMISSIONS] when the
    user has an account for the service, [MESSAGE_OAUTH_WEBHOOK_NO_ACCOUNT]
    when the user has none, each with the display name of the provider. *)
Theorem attach_webhook_no_success (env : Env) (project_pk user_pk : nat)
    (integration : option Integration) (w : World) (project : Project)
    (user : User) (service : ServiceCls) :
  projects w !! project_pk = Some project →
  user_of w user_pk = Some user →
  resolved_service env project integration = Some service →
  (∀ a, a ∈ for_user service user →
        webhook_ok project integration a = false) →
  let r := attach_webhook env project_pk user_pk integration w in
  let display_name := allauth_provider_name env (adapter_provider_id service) in
  r.1 = Return (Some false)
  ∧ trace r.2
    = trace w ++ ((λ a, EvSetupWebhook a project integration)
                    <$> for_user service user)
  ∧ projects r.2 = projects w
  ∧ ∃ n, notifications r.2 = notifications w ++ [n]
         ∧ attached_to n = project_pk
         ∧ ("provider_name", Literal display_name) ∈ format_values n
         ∧ match for_user service user with
           | _ :: _ =>
               n = notification_no_permissions project_pk display_name
               ∧ message_id n = MESSAGE_OAUTH_WEBHOOK_NO_PERMISSIONS
           | [] =>
               n = notification_no_account project_pk project display_name
               ∧ message_id n = MESSAGE_OAUTH_WEBHOOK_NO_ACCOUNT
           end.
Proof.
  intros Hp Hu Hs Hall. cbv zeta.
  rewrite attach_webhook_unfold, Hp, Hu, Hs. cbv zeta.
  rewrite try_accounts_all_refused by done. simpl.
  split_and!; [done|done|done|].
  eexists. split; [done|]. unfold notification_no_webhook.
  destruct (for_user service user); simpl; split_and!; try done; left.
Qed.

Lemma attach_webhook_no_success_witness :
  let r := attach_webhook (SampleWebhook.env_with [SampleWebhook.github_denied])
             7 1 None SampleWebhook.world in
  r.1 = Return (Some false)
  ∧ notifications r.2 = [notification_no_permissions 7 "github"]
  ∧ projects r.2 = projects SampleWebhook.world.
Proof.
  pose proof (attach_webhook_no_success
                (SampleWebhook.env_with [SampleWebhook.github_denied]) 7 1
                None SampleWebhook.world SampleWebhook.project Sample.alice
                SampleWebhook.github_denied eq_refl eq_refl eq_refl) as H.
  cbv zeta in H.
  destruct H as (Hr & _ & Hprojects & n & Hn & _ & _ & Hmsg & _).
  - intros a Ha. apply list_elem_of_singleton in Ha. by subst a.
  - cbv zeta. rewrite Hn, Hmsg. done.
Defined.

(** C4 (amended). When the project and the user both exist and the provider
    configuration is invalid (an integration is given whose type is not in
    [SERVICE_MAP], or none is given and no class of the registry claims the
    project), [attach_webhook] returns [None], adds exactly one
    [MESSAGE_OAUTH_WEBHOOK_INVALID] notification attached to the project,
    calls no [setup_webhook] and leaves the project table as it was. *)
Theorem attach_webhook_invalid (env : Env) (project_pk user_pk : nat)
    (integration : option Integration) (w : World) (project : Project)
    (user : User) :
  projects w !! project_pk = Some project →
  user_of w user_pk = Some user →
  match integration with
  | Some integration => SERVICE_MAP env !! integration_type integration = None
  | None =>
      ∀ service_cls, service_cls ∈ registry env →
                     is_project_service service_cls project = false
  end →
  let r := attach_webhook env project_pk user_pk integration w in
  let n := notification_invalid project_pk project in
  r = (Return None, set_notifications (notifications w ++ [n]) w)
  ∧ notifications r.2 = notifications w ++ [n]
  ∧ message_id n = MESSAGE_OAUTH_WEBHOOK_INVALID
  ∧ attached_to n = project_pk
  ∧ trace r.2 = trace w
  ∧ projects r.2 = projects w.
Proof.
  intros Hp Hu Hinvalid. cbv zeta.
  assert (Hs : resolved_service env project integration = None).
  { unfold resolved_service. destruct integration as [integration|]; [done|].
    by apply find_all_false. }
  rewrite attach_webhook_unfold, Hp, Hu, Hs. done.
Qed.

Lemma attach_webhook_invalid_witness :
  let r := attach_webhook (SampleWebhook.env_with [SampleWebhook.bitbucket])
             7 1 None SampleWebhook.world in
  r.1 = Return None
  ∧ notifications r.2 = [notification_invalid 7 SampleWebhook.project].
Proof.
  pose proof (attach_webhook_invalid
                (SampleWebhook.env_with [SampleWebhook.bitbucket]) 7 1 None
                SampleWebhook.world SampleWebhook.project Sample.alice
                eq_refl eq_refl) as H.
  cbv zeta in H. destruct H as (Hr & _).
  - intros service_cls Hin. apply list_elem_of_singleton in Hin.
    by subst service_cls.
  - cbv zeta. rewrite Hr. done.
Defined.

(** C4 as stated fails: with an integration of a type that is not in
    [SERVICE_MAP] but a user that does not exist, the guard of line 169
    returns [False] before the configuration is looked at. *)
Lemma attach_webhook_invalid_missing_user :
  ¬ (∀ env project_pk user_pk integration w,
       SERVICE_MAP env !! integration_type integration = None →
       (attach_webhook env project_pk user_pk (Some integration) w).1
       = Return None).
Proof.
  intros H.
  specialize (H (SampleWebhook.env_with [SampleWebhook.bitbucket]) 7%nat
                99%nat SampleWebhook.unregistered SampleWebhook.world
                eq_refl).
  rewrite attach_webhook_unfold in H. discriminate H.
Qed.

(** That call returns [False] and adds no notification. *)
Example attach_webhook_missing_user :
  attach_webhook (SampleWebhook.env_with [SampleWebhook.bitbucket]) 7 99
    (Some SampleWebhook.unregistered) SampleWebhook.world
  = (Return (Some false), SampleWebhook.world).
Proof. by rewrite attach_webhook_unfold. Qed.

(** * Further properties *)

(** ** [sync_remote_repositories]: how a run ends *)

(** An exception that is not a [SyncServiceError] ends the inner loop at the
    account that raised it, whatever was recorded before. *)
Lemma for_fold_sync_one_escape (before after : list Service) (x : Service)
    (d : string) (s : pyset) (w : World) :
  (∀ y, y ∈ before → sync_escapes y = false) →
  sync x = Raise (OtherException d) →
  for_fold sync_one (before ++ x :: after) s w
  = (Raise (OtherException d),
     set_trace (trace w ++ (EvSync <$> (before ++ [x]))) w).
Proof.
  intros Hbefore Hx. rewrite for_fold_app. unfold bind at 1.
  rewrite for_fold_sync_one by done. simpl for_fold. unfold bind at 1.
  unfold sync_one at 1, try_except_SyncServiceError, call_sync, bind, emit.
  rewrite Hx. rewrite (set_trace_app (EvSync <$> before) [EvSync x]).
  by rewrite fmap_app.
Qed.

Lemma first_escape_or_none (l : list Service) :
  (∀ x, x ∈ l → sync_escapes x = false)
  ∨ ∃ before x after d,
      l = before ++ x :: after
      ∧ (∀ y, y ∈ before → sync_escapes y = false)
      ∧ sync x = Raise (OtherException d).
Proof.
  induction l as [|a l IH].
  - left. intros x Hx. by apply elem_of_nil in Hx.
  - destruct (sync a) as [[]|[m|d]] eqn:Ha.
    + destruct IH as [Hall|(before & x & after & d & -> & Hb & Hx)].
      * left. intros x [->|Hx]%elem_of_cons; [|by apply Hall].
        unfold sync_escapes. by rewrite Ha.
      * right. exists (a :: before), x, after, d. split_and!; [done| |done].
        intros y [->|Hy]%elem_of_cons; [|by apply Hb].
        unfold sync_escapes. by rewrite Ha.
    + destruct IH as [Hall|(before & x & after & d & -> & Hb & Hx)].
      * left. intros x [->|Hx]%elem_of_cons; [|by apply Hall].
        unfold sync_escapes. by rewrite Ha.
      * right. exists (a :: before), x, after, d. split_and!; [done| |done].
        intros y [->|Hy]%elem_of_cons; [|by apply Hb].
        unfold sync_escapes. by rewrite Ha.
    + right. exists [], a, l, d. split_and!; [done| |done].
      intros y Hy. by apply elem_of_nil in Hy.
Qed.

(** X1. The result of [sync_remote_repositories] for a user that exists
    tells how the run went.  A normal return means that every account was
    synced and every [sync()] returned.  A [SyncServiceError] is always the
    aggregate one: every account was synced, none raised another exception,
    at least one raised [SyncServiceError], and the message is built from the
    set of failed names.  Any other exception is the one raised by the last
    account synced, the first in order to raise one; the accounts after it
    were not synced and the failures recorded before it are dropped. *)
Theorem sync_remote_repositories_result (env : Env) (user_id : nat)
    (w : World) (user : User) :
  user_of w user_id = Some user →
  let r := sync_remote_repositories env user_id w in
  let accounts := user_services env user in
  match r.1 with
  | Return _ =>
      trace r.2 = trace w ++ EvSyncUser user_id :: (EvSync <$> accounts)
      ∧ ∀ x, x ∈ accounts → sync x = Return tt
  | Raise (SyncServiceError m) =>
      trace r.2 = trace w ++ EvSyncUser user_id :: (EvSync <$> accounts)
      ∧ (∀ x, x ∈ accounts → sync_escapes x = false)
      ∧ (∃ x, x ∈ accounts ∧ sync_failed x = true)
      ∧ m = INVALID_OR_REVOKED_ACCESS_TOKEN env
              (join ", " (pyset_order env (add_failed accounts [])))
  | Raise (OtherException d) =>
      ∃ before x after,
        accounts = before ++ x :: after
        ∧ (∀ y, y ∈ before → sync_escapes y = false)
        ∧ sync x = Raise (OtherException d)
        ∧ trace r.2
          = trace w ++ EvSyncUser user_id :: (EvSync <$> (before ++ [x]))
  end.
Proof.
  intros Hu. cbv zeta. rewrite sync_remote_repositories_unfold. cbv zeta.
  rewrite Hu.
  destruct (first_escape_or_none (user_services env user))
    as [Hall|(before & x & after & d & Hl & Hb & Hx)].
  - rewrite for_fold_sync_one by done.
    rewrite (set_trace_app [EvSyncUser user_id]).
    destruct (add_failed (user_services env user) []) as [|n s] eqn:Hs; simpl.
    + split; [done|]. intros x Hin.
      pose proof (proj1 (add_failed_nil_iff _) Hs x Hin) as Hf.
      pose proof (Hall x Hin) as He. unfold sync_failed, sync_escapes in *.
      destruct (sync x) as [[]|[m|d]]; done.
    + split_and!; [done|done| |done].
      assert (Hin : n ∈ add_failed (user_services env user) [])
        by (rewrite Hs; left).
      apply elem_of_add_failed in Hin as [Hin|(x & Hx & Hf & _)];
        [by apply elem_of_nil in Hin|by exists x].
  - rewrite Hl, (for_fold_sync_one_escape before after x d) by done. simpl.
    exists before, x, after. split_and!; [done|done|done|].
    by rewrite <- (assoc app).
Qed.

Lemma sync_remote_repositories_result_witness :
  let env := Sample.env_with Sample.registry_two_revoked (λ l, l) in
  let r := sync_remote_repositories env 1 Sample.world in
  trace r.2
  = [] ++ EvSyncUser 1 :: (EvSync <$> user_services env Sample.alice)
  ∧ ∃ x, x ∈ user_services env Sample.alice ∧ sync_failed x = true.
Proof.
  pose proof (sync_remote_repositories_result
                (Sample.env_with Sample.registry_two_revoked (λ l, l)) 1
                Sample.world Sample.alice eq_refl) as H.
  cbv zeta in H.
  change ((sync_remote_repositories
             (Sample.env_with Sample.registry_two_revoked (λ l, l)) 1
             Sample.world).1)
    with (@Raise unit (SyncServiceError "revoked: GitHub")) in H.
  destruct H as (Ht & _ & Hex & _). split; [exact Ht|exact Hex].
Defined.

Lemma user_services_nil (env : Env) (user : User) :
  (∀ service_cls, service_cls ∈ registry env →
                  for_user service_cls user = []) →
  user_services env user = [].
Proof.
  unfold user_services. induction (registry env) as [|c l IH]; intros Hl.
  - done.
  - change ((c :: l) ≫= λ service_cls, for_user service_cls user)
      with (for_user c user ++ (l ≫= λ service_cls, for_user service_cls user)).
    rewrite (Hl c) by left. apply IH. intros c' Hc'. apply Hl. by right.
Qed.

(** X2. For a user that exists and has no account with any registered
    provider, [sync_remote_repositories] returns without error and calls no
    [sync()]: the tables are untouched and the trace only gains the entry
    into the task. *)
Theorem sync_remote_repositories_no_account (env : Env) (user_id : nat)
    (w : World) (user : User) :
  user_of w user_id = Some user →
  (∀ service_cls, service_cls ∈ registry env →
                  for_user service_cls user = []) →
  sync_remote_repositories env user_id w
  = (Return tt, set_trace (trace w ++ [EvSyncUser user_id]) w).
Proof.
  intros Hu Hnone. rewrite sync_remote_repositories_unfold. cbv zeta.
  rewrite Hu, user_services_nil by done. done.
Qed.

Lemma sync_remote_repositories_no_account_witness :
  sync_remote_repositories
    (Sample.env_with Sample.registry_two_revoked (λ l, l)) 2 Sample.world
  = (Return tt, set_trace (trace Sample.world ++ [EvSyncUser 2]) Sample.world).
Proof.
  apply (sync_remote_repositories_no_account _ 2 Sample.world Sample.bob).
  - reflexivity.
  - intros service_cls Hin.
    repeat (apply elem_of_cons in Hin as [->|Hin]; [reflexivity|]).
    by apply elem_of_nil in Hin.
Defined.

Lemma NoDup_all_equal (n : string) (l : list string) :
  NoDup l → (∀ m, m ∈ l → m = n) → l = [] ∨ l = [n].
Proof.
  intros Hnd Hall. destruct l as [|a [|b l]]; [by left| |].
  - right. by rewrite (Hall a) by left.
  - assert (a = n) by (apply Hall; left).
    assert (b = n) by (apply Hall; right; left). subst.
    apply NoDup_cons in Hnd as [Hnot _]. destruct Hnot. left.
Qed.

(** X3. When all the accounts that fail belong to providers of one and the
    same name, the message of the aggregate error names that provider alone
    and so does not depend on the order in which the set is iterated. *)
Theorem sync_remote_repositories_single_provider (env : Env) (user_id : nat)
    (w : World) (user : User) (name : string) :
  pyset_order_ok env →
  user_of w user_id = Some user →
  (∀ x, x ∈ user_services env user → sync_escapes x = false) →
  (∃ x, x ∈ user_services env user ∧ sync_failed x = true) →
  (∀ x, x ∈ user_services env user → sync_failed x = true →
        provider_name x = name) →
  (sync_remote_repositories env user_id w).1
  = Raise (SyncServiceError (INVALID_OR_REVOKED_ACCESS_TOKEN env name)).
Proof.
  intros Hord Hu Hesc (x & Hx & Hf) Hname.
  rewrite sync_remote_repositories_unfold. cbv zeta.
  rewrite Hu, for_fold_sync_one by done.
  destruct (NoDup_all_equal name (add_failed (user_services env user) []))
    as [Hnil|Hone].
  - apply add_failed_NoDup, NoDup_nil_2.
  - intros m [Hm|(y & Hy & Hfy & <-)]%elem_of_add_failed;
      [by apply elem_of_nil in Hm|]. by apply Hname.
  - rewrite (proj1 (add_failed_nil_iff _) Hnil x Hx) in Hf. done.
  - rewrite Hone. simpl.
    pose proof (Hord [name]) as Hperm.
    apply Permutation_singleton_r in Hperm. by rewrite Hperm.
Qed.

Lemma sync_remote_repositories_single_provider_witness :
  (sync_remote_repositories
     (Sample.env_with Sample.registry_two_revoked reverse) 1 Sample.world).1
  = Raise (SyncServiceError "revoked: GitHub").
Proof.
  apply (sync_remote_repositories_single_provider
           (Sample.env_with Sample.registry_two_revoked reverse) 1
           Sample.world Sample.alice "GitHub").
  - intros l. apply reverse_Permutation.
  - reflexivity.
  - intros x Hx. unfold user_services in Hx. simpl in Hx.
    repeat (apply elem_of_cons in Hx as [->|Hx]; [reflexivity|]).
    by apply elem_of_nil in Hx.
  - exists (Sample.account 1 "GitHub" Sample.revoked false).
    split; [left|reflexivity].
  - intros x Hx. unfold user_services in Hx. simpl in Hx.
    repeat (apply elem_of_cons in Hx as [->|Hx];
            [first [reflexivity|discriminate]|]).
    by apply elem_of_nil in Hx.
Defined.

(** ** [sync_remote_repositories_organizations]: the organizations resolved *)

(** X4. The organizations a call resolves: with a non-empty list of slugs,
    the rows of the organization table whose slug is in the list; with no
    list, and also with an empty one, the rows that some SSO integration
    with the allauth provider points to. *)
Theorem elem_of_organizations_query (env : Env)
    (organization_slugs : option (list string)) (w : World)
    (o : Organization) :
  o ∈ organizations_query env organization_slugs w
  ↔ o ∈ organizations w
    ∧ match organization_slugs with
      | Some (slug :: slugs) => organization_slug o ∈ slug :: slugs
      | Some [] | None =>
          ∃ i, i ∈ sso_integrations w
               ∧ sso_provider i = PROVIDER_ALLAUTH env
               ∧ sso_organization i = organization_pk o
      end.
Proof.
  assert (Hsso :
    organization_pk o
      ∈ sso_organization
          <$> filter (λ i, sso_provider i = PROVIDER_ALLAUTH env)
                     (sso_integrations w)
    ↔ ∃ i, i ∈ sso_integrations w
           ∧ sso_provider i = PROVIDER_ALLAUTH env
           ∧ sso_organization i = organization_pk o).
  { rewrite list_elem_of_fmap. split.
    - intros (i & Hpk & [Hprov Hin]%list_elem_of_filter). by exists i.
    - intros (i & Hin & Hprov & Hpk). exists i. split; [done|].
      by apply list_elem_of_filter. }
  unfold organizations_query.
  destruct organization_slugs as [[|slug slugs]|];
    rewrite list_elem_of_filter; try rewrite Hsso; tauto.
Qed.

(** X5. The resolved organizations are rows of the organization table, in
    table order, each row at most once: neither several SSO integrations of
    one organization nor a slug listed twice make it come up twice.  So two
    non-empty lists with the same slugs, in whatever order and with whatever
    repetitions, make the task submit the same jobs. *)
Theorem organizations_query_rows (env : Env) (w : World) :
  (∀ organization_slugs,
     organizations_query env organization_slugs w
       `sublist_of` organizations w)
  ∧ (∀ slug1 slugs1 slug2 slugs2,
       (∀ s, s ∈ slug1 :: slugs1 ↔ s ∈ slug2 :: slugs2) →
       sync_remote_repositories_organizations env (Some (slug1 :: slugs1)) w
       = sync_remote_repositories_organizations env
           (Some (slug2 :: slugs2)) w).
Proof.
  split.
  - intros organization_slugs. unfold organizations_query.
    destruct organization_slugs as [[|slug slugs]|]; apply sublist_filter.
  - intros slug1 slugs1 slug2 slugs2 Hsame.
    rewrite !sync_remote_repositories_organizations_run.
    unfold members_in_order, organizations_query.
    by rewrite (list_filter_iff _ (λ o, organization_slug o ∈ slug2 :: slugs2)).
Qed.

Lemma organizations_query_rows_witness :
  sync_remote_repositories_organizations SampleOrganizations.env
    (Some ["b"; "a"; "b"]) SampleOrganizations.world
  = sync_remote_repositories_organizations SampleOrganizations.env
      (Some ["a"; "b"]) SampleOrganizations.world.
Proof.
  apply (proj2 (organizations_query_rows SampleOrganizations.env
                  SampleOrganizations.world)).
  intros s. rewrite !elem_of_cons. rewrite !elem_of_nil. tauto.
Defined.

(** ** [sync_active_users_remote_repositories]: rows, runs and weeks *)

Lemma bind_const_row {A B} (l : list A) (b : bool) (x : B) :
  l ≫= (λ _, if b then [x] else [])
  = replicate (if b then length l else 0%nat) x.
Proof.
  induction l as [|a l IH]; [by destruct b|].
  rewrite bind_cons, IH. by destruct b.
Qed.

Lemma weekly_users_replicate (w : World) :
  weekly_users w
  = auth_user w ≫= (λ user, replicate (attempts_due w user) user).
Proof.
  unfold weekly_users, active_users_query, attempts_due, linked_accounts.
  apply list_bind_ext; [|done]. intros user. apply bind_const_row.
Qed.

Lemma filter_replicate_eq (p q : nat) (n : nat) :
  filter (λ pk, pk = p) (replicate n q)
  = if decide (q = p) then replicate n q else [].
Proof.
  induction n as [|n IH]; simpl; [by case_decide|].
  rewrite filter_cons, IH. repeat case_decide; done.
Qed.

Lemma count_rows (user : User) (n : User -> nat) (l : list User) :
  NoDup (user_pk <$> l) → user ∈ l →
  length (filter (λ pk, pk = user_pk user)
            (user_pk <$> (l ≫= (λ u, replicate (n u) u))))
  = n user.
Proof.
  induction l as [|a l IH]; intros Hnd Hin; [by apply elem_of_nil in Hin|].
  rewrite fmap_cons in Hnd. apply NoDup_cons in Hnd as [Ha Hnd].
  rewrite bind_cons, fmap_app, filter_app, length_app, fmap_replicate.
  rewrite filter_replicate_eq.
  apply elem_of_cons in Hin as [->|Hin].
  - rewrite decide_True by done. rewrite length_replicate.
    assert (Hrest :
      filter (λ pk, pk = user_pk a)
        (user_pk <$> (l ≫= (λ u, replicate (n u) u))) = []).
    { clear IH Hnd. induction l as [|b l IHl]; [done|].
      rewrite bind_cons, fmap_app, filter_app, fmap_replicate.
      rewrite filter_replicate_eq.
      rewrite decide_False
        by (intros Hb; apply Ha; rewrite fmap_cons, Hb; left).
      simpl. apply IHl. intros Hin. apply Ha. rewrite fmap_cons. by right. }
    rewrite Hrest. simpl. lia.
  - rewrite decide_False.
    + simpl. by apply IH.
    + intros Heq. apply Ha. rewrite Heq. by apply list_elem_of_fmap_2.
Qed.

(** X6. In one run of [sync_active_users_remote_repositories] over a user
    table with distinct primary keys, [sync_remote_repositories] is entered
    for a user as many times as the user has linked accounts when the user is
    within the 90 days and on today's weekday, and not at all otherwise. *)
Theorem sync_active_users_remote_repositories_per_account (env : Env)
    (w : World) (user : User) :
  NoDup (user_pk <$> auth_user w) →
  user ∈ auth_user w →
  ∃ t, sync_active_users_remote_repositories env w
       = (Return tt,
          set_trace (trace w ++ t)
            (set_clock_reads (S (S (clock_reads w))) w))
       ∧ length (filter (λ pk, pk = user_pk user) (sync_user_entries t))
         = attempts_due w user.
Proof.
  intros Hnd Hin. rewrite sync_active_users_remote_repositories_unfold.
  destruct (for_fold_resync_user env (weekly_users w)
              (set_clock_reads (S (S (clock_reads w))) w))
    as (t & Hrun & Ht).
  exists t. split; [done|].
  rewrite Ht, weekly_users_replicate. by apply count_rows.
Qed.

Lemma sync_active_users_remote_repositories_per_account_witness :
  ∃ t, sync_active_users_remote_repositories SampleWeekly.env
         SampleWeekly.world
       = (Return tt,
          set_trace (trace SampleWeekly.world ++ t)
            (set_clock_reads 2 SampleWeekly.world))
       ∧ length (filter (λ pk, pk = 1%nat) (sync_user_entries t)) = 2%nat.
Proof.
  apply (sync_active_users_remote_repositories_per_account SampleWeekly.env
           SampleWeekly.world Sample.alice).
  - simpl. apply NoDup_cons. split.
    + intros Hin. apply list_elem_of_singleton in Hin. discriminate Hin.
    + apply NoDup_singleton.
  - left.
Defined.

Lemma user_of_elem (w : World) (user : User) :
  NoDup (user_pk <$> auth_user w) → user ∈ auth_user w →
  user_of w (user_pk user) = Some user.
Proof.
  unfold user_of. induction (auth_user w) as [|a l IH]; intros Hnd Hin;
    [by apply elem_of_nil in Hin|].
  rewrite fmap_cons in Hnd. apply NoDup_cons in Hnd as [Ha Hnd]. simpl.
  apply elem_of_cons in Hin as [->|Hin].
  - by rewrite bool_decide_eq_true_2.
  - rewrite bool_decide_eq_false_2; [by apply IH|].
    intros Heq. apply Ha. rewrite Heq. by apply list_elem_of_fmap_2.
Qed.

(** The loop body for a user whose accounts let no exception through. *)
Lemma resync_user_full (env : Env) (user : User) (w : World) :
  user_of w (user_pk user) = Some user →
  (∀ x, x ∈ user_services env user → sync_escapes x = false) →
  resync_user env user tt w
  = (Return tt, set_trace (trace w ++ full_sync_trace env user) w).
Proof.
  intros Hu Hesc. unfold resync_user, try_except_Exception.
  rewrite sync_remote_repositories_unfold. cbv zeta.
  rewrite Hu, for_fold_sync_one by done.
  rewrite (set_trace_app [EvSyncUser (user_pk user)]).
  destruct (add_failed (user_services env user) []); done.
Qed.

Lemma for_fold_resync_user_full (env : Env) (rows : list User) (w : World) :
  (∀ user, user ∈ rows →
           user_of w (user_pk user) = Some user
           ∧ ∀ x, x ∈ user_services env user → sync_escapes x = false) →
  for_fold (resync_user env) rows tt w
  = (Return tt, set_trace (trace w ++ (rows ≫= full_sync_trace env)) w).
Proof.
  revert w. induction rows as [|user rows IH]; intros w Hrows.
  - simpl. unfold ret. by rewrite (right_id [] app), set_trace_id.
  - simpl for_fold. unfold bind at 1.
    destruct (Hrows user) as [Hu Hesc]; [left|].
    rewrite resync_user_full by done.
    rewrite IH by (intros u Hin; apply (Hrows u); by right).
    by rewrite set_trace_app, bind_cons.
Qed.

(** X7. When the user table has distinct primary keys and no account of a
    selected user raises an exception other than [SyncServiceError], a run
    of [sync_active_users_remote_repositories] is the complete sync of each
    row of [users] in turn: the entry into [sync_remote_repositories]
    followed by the [sync()] of every account of that user, whether or not
    earlier users failed. *)
Theorem sync_active_users_remote_repositories_trace (env : Env) (w : World) :
  NoDup (user_pk <$> auth_user w) →
  (∀ user x, user ∈ weekly_users w → x ∈ user_services env user →
             sync_escapes x = false) →
  sync_active_users_remote_repositories env w
  = (Return tt,
     set_trace (trace w ++ (weekly_users w ≫= full_sync_trace env))
       (set_clock_reads (S (S (clock_reads w))) w)).
Proof.
  intros Hnd Hesc. rewrite sync_active_users_remote_repositories_unfold.
  rewrite for_fold_resync_user_full; [done|].
  intros user Hin. split; [|by eauto].
  apply (user_of_elem w user Hnd).
  by apply elem_of_active_users_query in Hin as (Hin & _).
Qed.

Lemma sync_active_users_remote_repositories_trace_witness :
  sync_active_users_remote_repositories SampleWeekly.env SampleWeekly.world
  = (Return tt,
     set_trace
       (trace SampleWeekly.world
        ++ (weekly_users SampleWeekly.world
              ≫= full_sync_trace SampleWeekly.env))
       (set_clock_reads 2 SampleWeekly.world)).
Proof.
  apply sync_active_users_remote_repositories_trace.
  - simpl. apply NoDup_cons. split.
    + intros Hin. apply list_elem_of_singleton in Hin. discriminate Hin.
    + apply NoDup_singleton.
  - intros user x Hu Hx.
    change (weekly_users SampleWeekly.world)
      with [Sample.alice; Sample.alice] in Hu.
    assert (user = Sample.alice) as ->.
    { repeat (apply elem_of_cons in Hu as [->|Hu]; [reflexivity|]).
      by apply elem_of_nil in Hu. }
    unfold user_services in Hx. simpl in Hx.
    repeat (apply elem_of_cons in Hx as [->|Hx]; [reflexivity|]).
    by apply elem_of_nil in Hx.
Defined.

Lemma isoweekday_days_later (t k : Z) :
  isoweekday (t + timedelta_days k) = isoweekday t ↔ k mod 7 = 0.
Proof.
  unfold isoweekday, timedelta_days.
  rewrite Z.div_add by lia.
  pose proof (Z.mod_pos_bound (t / 86400 + k + 3) 7).
  pose proof (Z.mod_pos_bound (t / 86400 + 3) 7).
  pose proof (Z.mod_pos_bound k 7).
  pose proof (Z.div_mod (t / 86400 + k + 3) 7).
  pose proof (Z.div_mod (t / 86400 + 3) 7).
  pose proof (Z.div_mod k 7).
  lia.
Qed.

(** X8. The weekly cadence: a user selected by today's run is selected by
    the run [k] days later, the tables being the same, exactly when [k] is a
    multiple of 7 and the last login is then still less than 90 days old. *)
Theorem sync_active_users_remote_repositories_weekly (w : World) (k : Z)
    (user : User) :
  user ∈ weekly_users w →
  user ∈ weekly_users (days_later k w)
  ↔ k mod 7 = 0
    ∧ ∃ t, last_login user = Some t
           ∧ clock w (S (clock_reads w)) + timedelta_days k
             - timedelta_days 90 < t.
Proof.
  intros Hsel.
  apply elem_of_active_users_query
    in Hsel as (Hin & (t0 & Ht0 & Hnew & Hday) & Hlinked).
  unfold weekly_users. rewrite elem_of_active_users_query. simpl.
  split.
  - intros (_ & (t & Ht & Hnew' & Hday') & _).
    assert (t = t0) as -> by congruence. split; [|by exists t0].
    apply (isoweekday_days_later (clock w (clock_reads w)) k). congruence.
  - intros (Hk & t & Ht & Hnew'). split_and!; [done| |done].
    exists t. split_and!; [done|done|].
    assert (t = t0) as -> by congruence.
    rewrite Hday. symmetry. by apply isoweekday_days_later.
Qed.

Lemma sync_active_users_remote_repositories_weekly_witness :
  Sample.alice ∈ weekly_users (days_later 7 SampleWeekly.world)
  ↔ 7 mod 7 = 0
    ∧ ∃ t, last_login Sample.alice = Some t
           ∧ clock SampleWeekly.world 1 + timedelta_days 7
             - timedelta_days 90 < t.
Proof.
  apply (sync_active_users_remote_repositories_weekly SampleWeekly.world 7
           Sample.alice).
  change (weekly_users SampleWeekly.world) with [Sample.alice; Sample.alice].
  left.
Defined.

(** ** [attach_webhook]: what a result means and what is left alone *)

(** X9. When the project or the user does not exist, [attach_webhook]
    returns [False] and does nothing else: no notification, no
    [setup_webhook], no write, whatever the integration and the registry. *)
Theorem attach_webhook_missing_entity (env : Env) (project_pk user_pk : nat)
    (integration : option Integration) (w : World) :
  projects w !! project_pk = None ∨ user_of w user_pk = None →
  attach_webhook env project_pk user_pk integration w = (Return (Some false), w).
Proof.
  intros Hmissing. rewrite attach_webhook_unfold.
  destruct Hmissing as [-> | ->]; [done|].
  by destruct (projects w !! project_pk).
Qed.

Lemma attach_webhook_missing_entity_witness :
  attach_webhook (SampleWebhook.env_with [SampleWebhook.github]) 8 1 None
    SampleWebhook.world
  = (Return (Some false), SampleWebhook.world).
Proof.
  apply attach_webhook_missing_entity. left. reflexivity.
Defined.

(** X10. What each result of [attach_webhook] stands for.  [True]: the
    project row was saved with [has_valid_webhook] set and no notification
    was added.  [None]: nothing was tried or written and the one notification
    added is the "invalid" one for the project.  [False]: the project table
    is as it was, and either the project or the user is missing and nothing
    happened at all, or exactly one notification was added, "no permissions"
    or "no account", attached to the project.  In every case at most one
    notification is added, after the ones that were there. *)
Theorem attach_webhook_result (env : Env) (project_pk user_pk : nat)
    (integration : option Integration) (w : World) :
  let r := attach_webhook env project_pk user_pk integration w in
  match r.1 with
  | Return (Some true) =>
      notifications r.2 = notifications w
      ∧ ∃ project,
          projects w !! project_pk = Some project
          ∧ projects r.2
            = <[project_pk := with_valid_webhook project]> (projects w)
  | Return None =>
      projects r.2 = projects w ∧ trace r.2 = trace w
      ∧ ∃ project,
          projects w !! project_pk = Some project
          ∧ notifications r.2
            = notifications w ++ [notification_invalid project_pk project]
  | Return (Some false) =>
      projects r.2 = projects w
      ∧ ((r.2 = w
          ∧ (projects w !! project_pk = None ∨ user_of w user_pk = None))
         ∨ ∃ n, notifications r.2 = notifications w ++ [n]
                ∧ attached_to n = project_pk
                ∧ (message_id n = MESSAGE_OAUTH_WEBHOOK_NO_PERMISSIONS
                   ∨ message_id n = MESSAGE_OAUTH_WEBHOOK_NO_ACCOUNT))
  | Raise _ => False
  end.
Proof.
  cbv zeta. rewrite attach_webhook_unfold.
  destruct (projects w !! project_pk) as [project|] eqn:Hp;
    [|simpl; auto].
  destruct (user_of w user_pk) as [user|] eqn:Hu; [|simpl; auto].
  destruct (resolved_service env project integration) as [service|].
  - cbv zeta.
    destruct (first_granted_or_all_refused project integration
                (for_user service user))
      as [Hall|(before & account & after & -> & Hbefore & Hok)].
    + rewrite try_accounts_all_refused by done. simpl. split; [done|].
      right. eexists. split; [done|]. unfold notification_no_webhook.
      destruct (for_user service user); simpl; auto.
    + rewrite try_accounts_first_granted by done. simpl. split; [done|].
      by exists project.
  - simpl. split_and!; [done|done|]. by exists project.
Qed.

(** X11. Without an integration, the first class of the registry that
    claims the project is the one used, and the classes after it play no
    part even when they claim the project too: the call goes as if that
    class were the only one registered. *)
Theorem attach_webhook_first_claimant (env : Env) (project_pk user_pk : nat)
    (w : World) (project : Project) (before after : list ServiceCls)
    (service : ServiceCls) :
  projects w !! project_pk = Some project →
  registry env = before ++ service :: after →
  (∀ service_cls, service_cls ∈ before →
                  is_project_service service_cls project = false) →
  is_project_service service project = true →
  attach_webhook env project_pk user_pk None w
  = attach_webhook (set_registry [service] env) project_pk user_pk None w.
Proof.
  intros Hp Hreg Hbefore Hclaims. rewrite !attach_webhook_unfold, Hp.
  destruct (user_of w user_pk) as [user|]; [|done].
  assert (Hfind : ∀ l, find (λ c, is_project_service c project)
                         (before ++ service :: l) = Some service).
  { intros l. clear Hreg. induction before as [|c before IH]; simpl.
    - by rewrite Hclaims.
    - rewrite (Hbefore c) by left. apply IH.
      intros c' Hc'. apply Hbefore. by right. }
  unfold resolved_service. simpl. rewrite Hreg, Hfind, Hclaims. done.
Qed.

Lemma attach_webhook_first_claimant_witness :
  attach_webhook
    (SampleWebhook.env_with
       [SampleWebhook.bitbucket; SampleWebhook.github_denied;
        SampleWebhook.github]) 7 1 None SampleWebhook.world
  = attach_webhook
      (set_registry [SampleWebhook.github_denied]
         (SampleWebhook.env_with
            [SampleWebhook.bitbucket; SampleWebhook.github_denied;
             SampleWebhook.github])) 7 1 None SampleWebhook.world.
Proof.
  apply (attach_webhook_first_claimant _ 7 1 SampleWebhook.world
           SampleWebhook.project [SampleWebhook.bitbucket]
           [SampleWebhook.github] SampleWebhook.github_denied).
  - reflexivity.
  - reflexivity.
  - intros service_cls Hin. apply list_elem_of_singleton in Hin.
    by subst service_cls.
  - reflexivity.
Defined.

(** X12. With an integration, the registry is not consulted: the service
    comes from [SERVICE_MAP] alone, and the call goes the same way whatever
    classes are registered and whichever of them claim the project. *)
Theorem attach_webhook_integration_ignores_registry (env : Env)
    (reg : list ServiceCls) (project_pk user_pk : nat)
    (integration : Integration) (w : World) :
  attach_webhook (set_registry reg env) project_pk user_pk (Some integration) w
  = attach_webhook env project_pk user_pk (Some integration) w.
Proof. by rewrite !attach_webhook_unfold. Qed.

(** X13. [attach_webhook] keeps the project table in shape: rows under
    other keys are untouched, no row appears or disappears, and the row of
    [project_pk] keeps its slug and never loses a [has_valid_webhook] that
    was set. *)
Theorem attach_webhook_rows (env : Env) (project_pk user_pk : nat)
    (integration : option Integration) (w : World) :
  let r := attach_webhook env project_pk user_pk integration w in
  (∀ pk, pk ≠ project_pk → projects r.2 !! pk = projects w !! pk)
  ∧ match projects w !! project_pk with
    | None => projects r.2 !! project_pk = None
    | Some project =>
        ∃ project',
          projects r.2 !! project_pk = Some project'
          ∧ project_slug project' = project_slug project
          ∧ (has_valid_webhook project = true →
             has_valid_webhook project' = true)
    end.
Proof.
  cbv zeta. rewrite attach_webhook_unfold.
  destruct (projects w !! project_pk) as [project|] eqn:Hp; [|by simpl].
  assert (Hsame : ∀ w' : World, projects w' = projects w →
            (∀ pk, pk ≠ project_pk → projects w' !! pk = projects w !! pk)
            ∧ ∃ project', projects w' !! project_pk = Some project'
                ∧ project_slug project' = project_slug project
                ∧ (has_valid_webhook project = true →
                   has_valid_webhook project' = true)).
  { intros w' ->. split; [done|]. by exists project. }
  destruct (user_of w user_pk) as [user|]; [|by apply Hsame].
  destruct (resolved_service env project integration) as [service|];
    [|by apply Hsame].
  cbv zeta.
  destruct (first_granted_or_all_refused project integration
              (for_user service user))
    as [Hall|(before & account & after & -> & Hbefore & Hok)].
  - rewrite try_accounts_all_refused by done. by apply Hsame.
  - rewrite try_accounts_first_granted by done. simpl. split.
    + intros pk Hpk. by rewrite lookup_insert_ne.
    + exists (with_valid_webhook project).
      by rewrite lookup_insert_eq.
Qed.
